(** * Mundo Kids storefront: cart and checkout consistency

    A shallow embedding of the checkout handler of [app/(tabs)/cart.tsx]
    and of the relational store declared by
    [supabase/migrations/20250607032402_wooden_villa.sql], together with the
    properties of the cart / checkout specification that they decide.

    Conventions.
    - [uuid] values are opaque identifiers; [gen_random_uuid()] is a
      counter kept in the store.
    - [decimal(10,2)] amounts are whole numbers of cents in [Z]; the
      arithmetic on them is exact.
    - Timestamps ([created_at]) and presentation-only columns are left out. *)

From Stdlib Require Import String List ZArith Lia Bool Arith.
Import ListNotations.

(* ===================================================================== *)
(** * 1. The relational schema (migration 20250607032402_wooden_villa.sql) *)
(* ===================================================================== *)

Definition uuid := nat.

Inductive Table :=
  tbl_categories | tbl_products | tbl_cart_items | tbl_orders | tbl_order_items.

Inductive Command := SELECT | INSERT | UPDATE | DELETE.

Inductive Role := anon | authenticated.

(** [status text CHECK (status IN ('pending', 'confirmed', 'shipped',
    'delivered', 'cancelled'))]; the client type is the same union. *)
Inductive OrderStatus := pending | confirmed | shipped | delivered | cancelled.

(** Column domains. [decimal(10,2)]: ten digits, two of them after the
    point, so at most 9_999_999_999 cents in absolute value. [integer]: 32
    bits, out-of-range values are rejected (no wrap-around). *)
Definition fits_decimal_10_2 (cents : Z) : bool := (Z.abs cents <? 10 ^ 10)%Z.
Definition fits_integer (n : Z) : bool := ((- 2 ^ 31 <=? n) && (n <? 2 ^ 31))%Z.

Module Products.
Record Row := mk
  { id : uuid; name : string; price : Z; stock_quantity : Z }.
End Products.

Module CartItems.
Record Row := mk
  { id : uuid; user_id : uuid; product_id : uuid; quantity : Z }.
End CartItems.

Module Orders.
Record Row := mk
  { id : uuid; user_id : uuid; total_amount : Z; status : OrderStatus }.
(** The [Update] type of lib/supabase.ts: every column optional. *)
Record Update := mkUpdate
  { set_id : option uuid; set_user_id : option uuid;
    set_total_amount : option Z; set_status : option OrderStatus }.
Definition patch (u : Update) (r : Row) : Row :=
  {| id := match set_id u with Some v => v | None => id r end;
     user_id := match set_user_id u with Some v => v | None => user_id r end;
     total_amount :=
       match set_total_amount u with Some v => v | None => total_amount r end;
     status := match set_status u with Some v => v | None => status r end |}.
End Orders.

Module OrderItems.
Record Row := mk
  { id : uuid; order_id : uuid; product_id : uuid; quantity : Z; price : Z }.
(** The [Insert] payload built by the checkout handler. *)
Record Insert := mkInsert
  { new_order_id : uuid; new_product_id : uuid;
    new_quantity : Z; new_price : Z }.
Record Update := mkUpdate
  { set_id : option uuid; set_order_id : option uuid;
    set_product_id : option uuid;
    set_quantity : option Z; set_price : option Z }.
Definition patch (u : Update) (r : Row) : Row :=
  {| id := match set_id u with Some v => v | None => id r end;
     order_id := match set_order_id u with Some v => v | None => order_id r end;
     product_id :=
       match set_product_id u with Some v => v | None => product_id r end;
     quantity := match set_quantity u with Some v => v | None => quantity r end;
     price := match set_price u with Some v => v | None => price r end |}.
Definition line_total (r : Row) : Z := (quantity r * price r)%Z.
End OrderItems.

Record Store := mkStore
  { products : list Products.Row;
    cart_items : list CartItems.Row;
    orders : list Orders.Row;
    order_items : list OrderItems.Row;
    next_uuid : uuid }.

(* ===================================================================== *)
(** * 2. Row-level security                                               *)
(* ===================================================================== *)

(** The three expressions that occur in [USING] / [WITH CHECK] clauses. *)
Inductive PolicyExpr :=
| ExprTrue        (* true *)
| ExprOwnRow      (* auth.uid() = user_id *)
| ExprOwnOrder.   (* EXISTS (SELECT 1 FROM orders
                             WHERE orders.id = order_items.order_id
                               AND orders.user_id = auth.uid()) *)

Record Policy := mkPolicy
  { pol_name : string;
    pol_table : Table;
    pol_command : Command;
    pol_roles : list Role;
    pol_expr : PolicyExpr }.

(** Every [CREATE POLICY] of the migration, in file order. *)
Definition policies : list Policy :=
  [ mkPolicy "Categories are viewable by everyone"
      tbl_categories SELECT [anon; authenticated] ExprTrue;
    mkPolicy "Products are viewable by everyone"
      tbl_products SELECT [anon; authenticated] ExprTrue;
    mkPolicy "Users can view own cart items"
      tbl_cart_items SELECT [authenticated] ExprOwnRow;
    mkPolicy "Users can insert own cart items"
      tbl_cart_items INSERT [authenticated] ExprOwnRow;
    mkPolicy "Users can update own cart items"
      tbl_cart_items UPDATE [authenticated] ExprOwnRow;
    mkPolicy "Users can delete own cart items"
      tbl_cart_items DELETE [authenticated] ExprOwnRow;
    mkPolicy "Users can view own orders"
      tbl_orders SELECT [authenticated] ExprOwnRow;
    mkPolicy "Users can create own orders"
      tbl_orders INSERT [authenticated] ExprOwnRow;
    mkPolicy "Users can view own order items"
      tbl_order_items SELECT [authenticated] ExprOwnOrder;
    mkPolicy "Users can create order items for own orders"
      tbl_order_items INSERT [authenticated] ExprOwnOrder ].

(** [ALTER TABLE ... ENABLE ROW LEVEL SECURITY] is issued for all five
    tables. *)
Definition rls_enabled (t : Table) : bool := true.

Definition table_eqb (a b : Table) : bool :=
  match a, b with
  | tbl_categories, tbl_categories | tbl_products, tbl_products
  | tbl_cart_items, tbl_cart_items | tbl_orders, tbl_orders
  | tbl_order_items, tbl_order_items => true
  | _, _ => false
  end.

Definition command_eqb (a b : Command) : bool :=
  match a, b with
  | SELECT, SELECT | INSERT, INSERT | UPDATE, UPDATE | DELETE, DELETE => true
  | _, _ => false
  end.

Definition role_eqb (a b : Role) : bool :=
  match a, b with
  | anon, anon | authenticated, authenticated => true
  | _, _ => false
  end.

(** The session: [auth.uid()] is the signed-in user's id, or NULL. *)
Definition Session := option uuid.

Definition role_of (s : Session) : Role :=
  match s with Some _ => authenticated | None => anon end.

(** The columns of a row that policy expressions look at. *)
Record RowKeys := mkKeys
  { key_user_id : option uuid; key_order_id : option uuid }.

Definition no_keys : RowKeys := mkKeys None None.
Definition cart_item_keys (r : CartItems.Row) : RowKeys :=
  mkKeys (Some (CartItems.user_id r)) None.
Definition order_keys (r : Orders.Row) : RowKeys :=
  mkKeys (Some (Orders.user_id r)) None.
Definition order_item_keys (r : OrderItems.Row) : RowKeys :=
  mkKeys None (Some (OrderItems.order_id r)).

Definition owns_order (st : Store) (u oid : uuid) : bool :=
  existsb (fun o => (Orders.id o =? oid) && (Orders.user_id o =? u)) (orders st).

Definition eval_expr (st : Store) (s : Session) (e : PolicyExpr) (k : RowKeys)
  : bool :=
  match e with
  | ExprTrue => true
  | ExprOwnRow =>
      match s, key_user_id k with
      | Some u, Some v => u =? v
      | _, _ => false
      end
  | ExprOwnOrder =>
      match s, key_order_id k with
      | Some u, Some oid => owns_order st u oid
      | _, _ => false
      end
  end.

Definition policy_applies (t : Table) (c : Command) (r : Role) (p : Policy)
  : bool :=
  table_eqb (pol_table p) t && command_eqb (pol_command p) c
  && existsb (role_eqb r) (pol_roles p).

(** With row-level security enabled a row is reachable by a command only
    if some policy for that table, command and role accepts it. *)
Definition permitted (st : Store) (s : Session) (t : Table) (c : Command)
  (k : RowKeys) : bool :=
  if rls_enabled t then
    existsb (fun p => policy_applies t c (role_of s) p
                      && eval_expr st s (pol_expr p) k) policies
  else true.

(** The commands for which a table has at least one policy for a role. *)
Definition granted_commands (t : Table) (r : Role) : list Command :=
  filter (fun c => existsb (policy_applies t c r) policies)
         [SELECT; INSERT; UPDATE; DELETE].


(* ===================================================================== *)
(** * 3. The store's request / response interface                         *)
(* ===================================================================== *)

(** What a request can come back with in its [error] field. *)
Inductive PgError :=
| network_failure
| rls_violation                (* 42501 *)
| unique_violation             (* 23505 *)
| foreign_key_violation        (* 23503 *)
| numeric_value_out_of_range.  (* 22003 *)

(** The [{ data, error }] pair of the client library. *)
Inductive Response (A : Type) :=
| Data (data : A)
| Failure (error : PgError).
Arguments Data {A} data.
Arguments Failure {A} error.

(** A cart line as the cart screen holds it: the [cart_items] row joined
    with its product ([item.id], [item.product_id], [item.quantity],
    [item.product.price], ...). *)
Module CartItem.
Record t := mk
  { id : uuid; product_id : uuid; quantity : Z; product : Products.Row }.
End CartItem.

Definition set_cart_items (c : list CartItems.Row) (st : Store) : Store :=
  mkStore (products st) c (orders st) (order_items st) (next_uuid st).
Definition set_orders (o : list Orders.Row) (st : Store) : Store :=
  mkStore (products st) (cart_items st) o (order_items st) (next_uuid st).
Definition set_order_items (l : list OrderItems.Row) (st : Store) : Store :=
  mkStore (products st) (cart_items st) (orders st) l (next_uuid st).
Definition set_products (p : list Products.Row) (st : Store) : Store :=
  mkStore p (cart_items st) (orders st) (order_items st) (next_uuid st).
Definition bump_uuid (n : nat) (st : Store) : Store :=
  mkStore (products st) (cart_items st) (orders st) (order_items st)
          (next_uuid st + n).

Definition product_exists (st : Store) (p : uuid) : bool :=
  existsb (fun r => Products.id r =? p) (products st).
Definition order_exists (st : Store) (o : uuid) : bool :=
  existsb (fun r => Orders.id r =? o) (orders st).
Definition find_product (st : Store) (p : uuid) : option Products.Row :=
  find (fun r => Products.id r =? p) (products st).

(** [cart_items] rows of user [u] for product [p]. *)
Definition is_line (u p : uuid) (r : CartItems.Row) : bool :=
  (CartItems.user_id r =? u) && (CartItems.product_id r =? p).

(** *** cart_items *)

Definition join_product (st : Store) (r : CartItems.Row) : list CartItem.t :=
  match find_product st (CartItems.product_id r) with
  | Some p =>
      [CartItem.mk (CartItems.id r) (CartItems.product_id r)
                   (CartItems.quantity r) p]
  | None => []
  end.

Definition visible_cart (st : Store) (s : Session) (u : uuid)
  : list CartItems.Row :=
  filter (fun r => (CartItems.user_id r =? u)
                   && permitted st s tbl_cart_items SELECT (cart_item_keys r))
         (cart_items st).

Definition select_cart (s : Session) (u : uuid) (st : Store)
  : Store * Response (list CartItem.t) :=
  (st, Data (flat_map (join_product st) (visible_cart st s u))).

Definition select_cart_item (s : Session) (u p : uuid) (st : Store)
  : Store * Response (option CartItems.Row) :=
  (st, Data (find (fun r => CartItems.product_id r =? p) (visible_cart st s u))).

(** [UNIQUE(user_id, product_id)], [product_id REFERENCES products(id)],
    [quantity integer], and the INSERT policy's [WITH CHECK]. *)
Definition insert_cart_item (s : Session) (u p : uuid) (q : Z) (st : Store)
  : Store * Response unit :=
  let row := CartItems.mk (next_uuid st) u p q in
  if negb (fits_integer q) then (st, Failure numeric_value_out_of_range)
  else if negb (permitted st s tbl_cart_items INSERT (cart_item_keys row))
  then (st, Failure rls_violation)
  else if negb (product_exists st p) then (st, Failure foreign_key_violation)
  else if existsb (is_line u p) (cart_items st)
  then (st, Failure unique_violation)
  else (bump_uuid 1 (set_cart_items (cart_items st ++ [row]) st), Data tt).

Definition set_quantity (q : Z) (r : CartItems.Row) : CartItems.Row :=
  CartItems.mk (CartItems.id r) (CartItems.user_id r) (CartItems.product_id r) q.

Definition update_cart_quantity (s : Session) (u p : uuid) (q : Z) (st : Store)
  : Store * Response (list CartItems.Row) :=
  let hit r :=
    is_line u p r && permitted st s tbl_cart_items UPDATE (cart_item_keys r) in
  if negb (fits_integer q) then (st, Failure numeric_value_out_of_range)
  else (set_cart_items
          (map (fun r => if hit r then set_quantity q r else r) (cart_items st))
          st,
        Data (map (set_quantity q) (filter hit (cart_items st)))).

(** [delete from cart_items where user_id = u [and product_id = p]]. *)
Definition delete_cart_items (s : Session) (u : uuid) (p : option uuid)
  (st : Store) : Store * Response unit :=
  let hit r :=
    (CartItems.user_id r =? u)
    && match p with Some p => CartItems.product_id r =? p | None => true end
    && permitted st s tbl_cart_items DELETE (cart_item_keys r) in
  (set_cart_items (filter (fun r => negb (hit r)) (cart_items st)) st, Data tt).

(** *** orders *)

(** [.insert([{ user_id, total_amount, status }]).select().single()]: the
    row is created with a generated id and read back. *)
Definition insert_order (s : Session) (u : uuid) (total : Z)
  (status : OrderStatus) (st : Store) : Store * Response Orders.Row :=
  let row := Orders.mk (next_uuid st) u total status in
  let st' := bump_uuid 1 (set_orders (orders st ++ [row]) st) in
  if negb (fits_decimal_10_2 total) then (st, Failure numeric_value_out_of_range)
  else if negb (permitted st s tbl_orders INSERT (order_keys row))
  then (st, Failure rls_violation)
  else if negb (permitted st' s tbl_orders SELECT (order_keys row))
  then (st, Failure rls_violation)
  else (st', Data row).

Definition select_orders (s : Session) (u : uuid) (st : Store)
  : Store * Response (list Orders.Row) :=
  (st, Data (filter (fun r => (Orders.user_id r =? u)
                              && permitted st s tbl_orders SELECT (order_keys r))
                    (orders st))).

Definition update_orders (s : Session) (where_ : Orders.Row -> bool)
  (p : Orders.Update) (st : Store) : Store * Response (list Orders.Row) :=
  let hit r := where_ r && permitted st s tbl_orders UPDATE (order_keys r) in
  (set_orders (map (fun r => if hit r then Orders.patch p r else r) (orders st))
              st,
   Data (map (Orders.patch p) (filter hit (orders st)))).

(** Deleting an order takes its lines with it
    ([order_id REFERENCES orders(id) ON DELETE CASCADE]). *)
Definition delete_orders (s : Session) (where_ : Orders.Row -> bool)
  (st : Store) : Store * Response unit :=
  let hit r := where_ r && permitted st s tbl_orders DELETE (order_keys r) in
  let gone := map Orders.id (filter hit (orders st)) in
  (set_order_items
     (filter (fun l => negb (existsb (Nat.eqb (OrderItems.order_id l)) gone))
             (order_items st))
     (set_orders (filter (fun r => negb (hit r)) (orders st)) st),
   Data tt).

(** *** order_items *)

Fixpoint assign_ids (base : uuid) (rows : list OrderItems.Insert)
  : list OrderItems.Row :=
  match rows with
  | [] => []
  | n :: rest =>
      OrderItems.mk base (OrderItems.new_order_id n)
                    (OrderItems.new_product_id n)
                    (OrderItems.new_quantity n) (OrderItems.new_price n)
      :: assign_ids (S base) rest
  end.

(** One statement for all rows: every row is accepted or none is stored. *)
Definition insert_order_items (s : Session) (rows : list OrderItems.Insert)
  (st : Store) : Store * Response unit :=
  if negb (forallb (fun n => fits_integer (OrderItems.new_quantity n)
                             && fits_decimal_10_2 (OrderItems.new_price n)) rows)
  then (st, Failure numeric_value_out_of_range)
  else if negb (forallb
                  (fun n => permitted st s tbl_order_items INSERT
                              (mkKeys None (Some (OrderItems.new_order_id n))))
                  rows)
  then (st, Failure rls_violation)
  else if negb (forallb (fun n => order_exists st (OrderItems.new_order_id n)
                                  && product_exists st (OrderItems.new_product_id n))
                        rows)
  then (st, Failure foreign_key_violation)
  else (bump_uuid (length rows)
          (set_order_items (order_items st ++ assign_ids (next_uuid st) rows) st),
        Data tt).

Definition update_order_items (s : Session) (where_ : OrderItems.Row -> bool)
  (p : OrderItems.Update) (st : Store)
  : Store * Response (list OrderItems.Row) :=
  let hit r :=
    where_ r && permitted st s tbl_order_items UPDATE (order_item_keys r) in
  (set_order_items
     (map (fun r => if hit r then OrderItems.patch p r else r) (order_items st))
     st,
   Data (map (OrderItems.patch p) (filter hit (order_items st)))).

Definition delete_order_items (s : Session) (where_ : OrderItems.Row -> bool)
  (st : Store) : Store * Response unit :=
  let hit r :=
    where_ r && permitted st s tbl_order_items DELETE (order_item_keys r) in
  (set_order_items (filter (fun r => negb (hit r)) (order_items st)) st, Data tt).

(** *** products *)

(** Deleting a product takes the cart lines and order lines that reference
    it ([product_id REFERENCES products(id) ON DELETE CASCADE]). *)
Definition delete_products (s : Session) (where_ : Products.Row -> bool)
  (st : Store) : Store * Response unit :=
  let hit r := where_ r && permitted st s tbl_products DELETE no_keys in
  let gone := map Products.id (filter hit (products st)) in
  let dead pid := existsb (Nat.eqb pid) gone in
  (set_products (filter (fun r => negb (hit r)) (products st))
     (set_cart_items
        (filter (fun r => negb (dead (CartItems.product_id r))) (cart_items st))
        (set_order_items
           (filter (fun l => negb (dead (OrderItems.product_id l)))
                   (order_items st))
           st)),
   Data tt).

Definition set_price (v : Z) (r : Products.Row) : Products.Row :=
  Products.mk (Products.id r) (Products.name r) v (Products.stock_quantity r).

Definition update_product_price (s : Session) (where_ : Products.Row -> bool)
  (v : Z) (st : Store) : Store * Response (list Products.Row) :=
  let hit r := where_ r && permitted st s tbl_products UPDATE no_keys in
  if negb (fits_decimal_10_2 v) then (st, Failure numeric_value_out_of_range)
  else (set_products
          (map (fun r => if hit r then set_price v r else r) (products st)) st,
        Data (map (set_price v) (filter hit (products st)))).

(** The requests a client can send, indexed by the type of [data]. *)
Inductive Request : Type -> Type :=
| SelectCart (u : uuid) : Request (list CartItem.t)
| SelectCartItem (u p : uuid) : Request (option CartItems.Row)
| InsertCartItem (u p : uuid) (q : Z) : Request unit
| UpdateCartQuantity (u p : uuid) (q : Z) : Request (list CartItems.Row)
| DeleteCartItems (u : uuid) (p : option uuid) : Request unit
| InsertOrder (u : uuid) (total : Z) (status : OrderStatus)
  : Request Orders.Row
| SelectOrders (u : uuid) : Request (list Orders.Row)
| UpdateOrders (where_ : Orders.Row -> bool) (p : Orders.Update)
  : Request (list Orders.Row)
| DeleteOrders (where_ : Orders.Row -> bool) : Request unit
| InsertOrderItems (rows : list OrderItems.Insert) : Request unit
| UpdateOrderItems (where_ : OrderItems.Row -> bool) (p : OrderItems.Update)
  : Request (list OrderItems.Row)
| DeleteOrderItems (where_ : OrderItems.Row -> bool) : Request unit
| UpdateProductPrice (where_ : Products.Row -> bool) (v : Z)
  : Request (list Products.Row)
| DeleteProducts (where_ : Products.Row -> bool) : Request unit.

Definition exec {A} (s : Session) (r : Request A) (st : Store)
  : Store * Response A :=
  match r in Request T return Store * Response T with
  | SelectCart u => select_cart s u st
  | SelectCartItem u p => select_cart_item s u p st
  | InsertCartItem u p q => insert_cart_item s u p q st
  | UpdateCartQuantity u p q => update_cart_quantity s u p q st
  | DeleteCartItems u p => delete_cart_items s u p st
  | InsertOrder u total status => insert_order s u total status st
  | SelectOrders u => select_orders s u st
  | UpdateOrders w p => update_orders s w p st
  | DeleteOrders w => delete_orders s w st
  | InsertOrderItems rows => insert_order_items s rows st
  | UpdateOrderItems w p => update_order_items s w p st
  | DeleteOrderItems w => delete_order_items s w st
  | UpdateProductPrice w v => update_product_price s w v st
  | DeleteProducts w => delete_products s w st
  end.

(** Catalogue management runs outside the client interface (it is not
    subject to the policies above): a price change on the live product. *)
Definition catalog_set_price (pid : uuid) (v : Z) (st : Store) : Store :=
  set_products
    (map (fun r => if Products.id r =? pid then set_price v r else r)
         (products st))
    st.


(* ===================================================================== *)
(** * 4. The client side                                                  *)
(* ===================================================================== *)

Module User.
Record t := mk { id : uuid; email : string }.
End User.

(** The client library sends every request with the signed-in user's
    token, so [auth.uid()] is [user.id] when [useAuth()] holds a user and
    NULL when it holds none. *)
Definition session_of (user : option User.t) : Session :=
  option_map User.id user.

Definition AnyRequest : Type := { A : Type & Request A }.
Definition logged {A} (r : Request A) : AnyRequest := existT Request A r.

(** The world a handler runs in: the remote store, the cart provider's
    in-memory [items] state, the fault schedule of the connection (one flag
    per request still to come, [true] = that request fails without
    reaching the store; no flag = no fault) and the requests issued so
    far. *)
Record World := mkWorld
  { db : Store;
    items_state : list CartItem.t;
    faults : list bool;
    log : list AnyRequest }.

(** What a handler can throw. *)
Inductive Exn :=
| PostgrestError (e : PgError)   (* a request's [error], re-thrown *)
| TypeError                      (* property access on null *)
| LoadError
| InvalidQuantityError
| NotFoundError
| IdentityAbsent.                (* precondition failure: no signed-in user *)

Inductive Result (A : Type) :=
| Return (a : A)
| Throw (e : Exn).
Arguments Return {A} a.
Arguments Throw {A} e.

(** Handlers: state passing over [World], with exceptions. *)
Definition Client (A : Type) : Type := World -> Result A * World.

Definition ret {A} (a : A) : Client A := fun w => (Return a, w).
Definition throw {A} (e : Exn) : Client A := fun w => (Throw e, w).
Definition bind {A B} (c : Client A) (k : A -> Client B) : Client B :=
  fun w =>
    match c w with
    | (Return a, w') => k a w'
    | (Throw e, w') => (Throw e, w')
    end.
Definition try_catch {A} (c : Client A) (handler : Exn -> Client A) : Client A :=
  fun w =>
    match c w with
    | (Return a, w') => (Return a, w')
    | (Throw e, w') => handler e w'
    end.

Declare Scope client_scope.
Delimit Scope client_scope with client.
Notation "x <- c ;; k" := (bind c (fun x => k))
  (at level 100, c at next level, right associativity) : client_scope.
Notation "c ;;; k" := (bind c (fun _ => k))
  (at level 100, right associativity) : client_scope.
Local Open Scope client_scope.

(** [await supabase.from(...)...]: the request is logged, consumes one
    fault flag, and unless that flag is set runs against the store. *)
Definition send {A} (s : Session) (r : Request A) : Client (Response A) :=
  fun w =>
    let log' := log w ++ [logged r] in
    if hd false (faults w)
    then (Return (Failure network_failure),
          mkWorld (db w) (items_state w) (tl (faults w)) log')
    else let (st', resp) := exec s r (db w) in
         (Return resp, mkWorld st' (items_state w) (tl (faults w)) log').

(** [if (error) throw error;] *)
Definition throw_on_error {A} (r : Response A) : Client A :=
  match r with
  | Data d => ret d
  | Failure e => throw (PostgrestError e)
  end.

(** [user!.id] *)
Definition non_null {A} (x : option A) : Client A :=
  match x with
  | Some a => ret a
  | None => throw TypeError
  end.

(** Modelled from the spec: the state setter of the provider's in-memory
    cart in contexts/CartContext (missing); it replaces the cart wholesale. *)
Definition setItems (its : list CartItem.t) : Client unit :=
  fun w => (Return tt, mkWorld (db w) its (faults w) (log w)).

(** ** The cart provider

    The provider behind [useCart()] ([@/contexts/CartContext]) is imported
    by the screens but its file is not among the sources. *)

(** Modelled from the spec: the value [useCart()] hands to a screen;
    [totalItems] is the sum of the quantities and [totalPrice] the sum of
    quantity times product price over all lines (spec 4.1). The provider
    file contexts/CartContext is missing. *)
Record CartContextValue := mkCart
  { items : list CartItem.t; totalItems : Z; totalPrice : Z }.

Definition line_price (i : CartItem.t) : Z :=
  (CartItem.quantity i * Products.price (CartItem.product i))%Z.

Definition sumZ (l : list Z) : Z := fold_right Z.add 0%Z l.

(** Modelled from the spec: the derived aggregates of contexts/CartContext
    (missing), "recomputed, not cached independently of line changes". *)
Definition useCart (w : World) : CartContextValue :=
  {| items := items_state w;
     totalItems := sumZ (map CartItem.quantity (items_state w));
     totalPrice := sumZ (map line_price (items_state w)) |}.

(** Modelled from the spec: [loadCart()] of contexts/CartContext (missing):
    fetch the user's lines joined with product data; [LoadError] if the
    store is unreachable or the identity is absent; on success replace the
    in-memory cart wholesale. *)
Definition loadCart (user : option User.t) : Client unit :=
  match user with
  | None => throw LoadError
  | Some u =>
      r <- send (session_of user) (SelectCart (User.id u)) ;;
      match r with
      | Data its => setItems its
      | Failure _ => throw LoadError
      end
  end.

(** Modelled from the spec: [addToCart(productId, quantity=1)] of
    contexts/CartContext (missing): reject a non-positive quantity with
    [InvalidQuantityError]; if a line for (user, productId) exists,
    increment its quantity, else create the line; then refresh the
    in-memory state from the store. *)
Definition addToCart (user : option User.t) (productId : uuid) (quantity : Z)
  : Client unit :=
  match user with
  | None => throw IdentityAbsent
  | Some u =>
      if (quantity <=? 0)%Z then throw InvalidQuantityError
      else
        r <- send (session_of user) (SelectCartItem (User.id u) productId) ;;
        existing <- throw_on_error r ;;
        match existing with
        | Some row =>
            r <- send (session_of user)
                      (UpdateCartQuantity (User.id u) productId
                         (CartItems.quantity row + quantity)) ;;
            throw_on_error r ;;;
            loadCart user
        | None =>
            r <- send (session_of user)
                      (InsertCartItem (User.id u) productId quantity) ;;
            throw_on_error r ;;;
            loadCart user
        end
  end.

(** Modelled from the spec: [removeFromCart(productId)] of
    contexts/CartContext (missing): delete the line for (user, productId)
    if present; no-op, not an error, if absent. *)
Definition removeFromCart (user : option User.t) (productId : uuid)
  : Client unit :=
  match user with
  | None => throw IdentityAbsent
  | Some u =>
      r <- send (session_of user) (DeleteCartItems (User.id u) (Some productId)) ;;
      throw_on_error r ;;;
      loadCart user
  end.

(** Modelled from the spec: [updateQuantity(productId, newQuantity)] of
    contexts/CartContext (missing): for [newQuantity <= 0] the same as
    [removeFromCart(productId)]; otherwise set the existing line's
    quantity, [NotFoundError] if there is no line for the product. *)
Definition updateQuantity (user : option User.t) (productId : uuid)
  (newQuantity : Z) : Client unit :=
  if (newQuantity <=? 0)%Z then removeFromCart user productId
  else
    match user with
    | None => throw IdentityAbsent
    | Some u =>
        r <- send (session_of user) (SelectCartItem (User.id u) productId) ;;
        existing <- throw_on_error r ;;
        match existing with
        | None => throw NotFoundError
        | Some _ =>
            r <- send (session_of user)
                      (UpdateCartQuantity (User.id u) productId newQuantity) ;;
            throw_on_error r ;;;
            loadCart user
        end
    end.

(** Modelled from the spec: [clearCart()] of contexts/CartContext
    (missing): delete all cart lines of the current user, then reset the
    in-memory cart. *)
Definition clearCart (user : option User.t) : Client unit :=
  match user with
  | None => throw IdentityAbsent
  | Some u =>
      r <- send (session_of user) (DeleteCartItems (User.id u) None) ;;
      throw_on_error r ;;;
      setItems []
  end.

(** ** The cart screen, app/(tabs)/cart.tsx *)

(** [handleUpdateQuantity]: [await updateQuantity(productId, newQuantity)]. *)
Definition handleUpdateQuantity (user : option User.t) (productId : uuid)
  (newQuantity : Z) : Client unit :=
  updateQuantity user productId newQuantity.

(** The two quantity buttons of [renderCartItem]. *)
Definition onPressMinus (user : option User.t) (item : CartItem.t) : Client unit :=
  handleUpdateQuantity user (CartItem.product_id item)
                       (CartItem.quantity item - 1)%Z.
Definition onPressPlus (user : option User.t) (item : CartItem.t) : Client unit :=
  handleUpdateQuantity user (CartItem.product_id item)
                       (CartItem.quantity item + 1)%Z.

(** The button pressed on the 'Finalizar Compra' dialog. *)
Inductive Choice := Cancelar | Confirmar.

(** What [handleCheckout] ends with: one of its three alerts, or nothing
    when the dialog is cancelled. *)
Inductive Outcome :=
| AlertCarrinhoVazio   (* Alert.alert('Carrinho Vazio', ...) *)
| Dismissed            (* 'Cancelar': no handler attached *)
| AlertSucesso         (* Alert.alert('Sucesso!', ...) *)
| AlertErro.           (* Alert.alert('Erro', ...) in the catch block *)

(** [items.map(item => ({ order_id: order.id, product_id: item.product_id,
    quantity: item.quantity, price: item.product.price }))] *)
Definition orderItems (order : Orders.Row) (its : list CartItem.t)
  : list OrderItems.Insert :=
  map (fun item =>
         OrderItems.mkInsert (Orders.id order) (CartItem.product_id item)
                             (CartItem.quantity item)
                             (Products.price (CartItem.product item)))
      its.

(** The body of the 'Confirmar' handler, inside its [try]. *)
Definition placeOrder (user : option User.t) (ctx : CartContextValue)
  : Client Outcome :=
  u <- non_null user ;;
  r <- send (session_of user)
            (InsertOrder (User.id u) (totalPrice ctx) pending) ;;
  order <- throw_on_error r ;;
  r' <- send (session_of user) (InsertOrderItems (orderItems order (items ctx))) ;;
  throw_on_error r' ;;;
  clearCart user ;;;
  ret AlertSucesso.

(** [handleCheckout], with the user's answer to the confirmation dialog
    as an input. *)
Definition handleCheckout (user : option User.t) (ctx : CartContextValue)
  (choice : Choice) : Client Outcome :=
  if length (items ctx) =? 0 then ret AlertCarrinhoVazio
  else
    match choice with
    | Cancelar => ret Dismissed
    | Confirmar => try_catch (placeOrder user ctx) (fun _ => ret AlertErro)
    end.

(** ** The profile screen *)

(** [loadOrders]: the order history shown on the profile screen, read from
    [orders] alone: the user's ten most recent rows, newest first (rows are
    stored in creation order). Nothing is shown without a user or when the
    request fails. *)
Definition loadOrders (user : option User.t) (st : Store) : list Orders.Row :=
  match user with
  | None => []
  | Some u =>
      match snd (select_orders (session_of user) (User.id u) st) with
      | Data rows => firstn 10 (rev rows)
      | Failure _ => []
      end
  end.


(* ===================================================================== *)
(** * 5. Vocabulary of the properties                                     *)
(* ===================================================================== *)

(** The cart lines of user [u] for product [p], their number and their
    total quantity (0 when there is none). *)
Definition lines (u p : uuid) (st : Store) : list CartItems.Row :=
  filter (is_line u p) (cart_items st).
Definition count_lines (u p : uuid) (st : Store) : nat := length (lines u p st).
Definition line_quantity (u p : uuid) (st : Store) : Z :=
  sumZ (map CartItems.quantity (lines u p st)).

(** All cart lines of user [u]. *)
Definition cart_of (u : uuid) (st : Store) : list CartItems.Row :=
  filter (fun r => CartItems.user_id r =? u) (cart_items st).

(** [UNIQUE(user_id, product_id)] as a property of a store. *)
Definition unique_cart (st : Store) : Prop :=
  forall u p, count_lines u p st <= 1.

(** The order lines that belong to order [oid]. *)
Definition lines_of (oid : uuid) (st : Store) : list OrderItems.Row :=
  filter (fun l => OrderItems.order_id l =? oid) (order_items st).

(** No stored order line refers to an id that is still to be generated. *)
Definition order_ids_fresh (st : Store) : Prop :=
  Forall (fun l => OrderItems.order_id l < next_uuid st) (order_items st).

(** Generated ids are new: every stored order and every order an order
    line refers to has an id below the next one to be generated. *)
Definition ids_fresh (st : Store) : Prop :=
  Forall (fun o => Orders.id o < next_uuid st) (orders st)
  /\ order_ids_fresh st.

(** No request still to come is made to fail. *)
Definition no_faults (w : World) : Prop :=
  Forall (fun b => b = false) (faults w).

(** The world once request [r] has been answered on a connection without
    faults. *)
Definition answered {A} (s : Session) (r : Request A) (w : World) : World :=
  mkWorld (fst (exec s r (db w))) (items_state w) (tl (faults w))
          (log w ++ [logged r]).

(** What a cart line becomes when the quantity of (u, p) is set to [q]. *)
Definition with_quantity (u p : uuid) (q : Z) (r : CartItems.Row)
  : CartItems.Row :=
  if is_line u p r then set_quantity q r else r.

(** The store accepts the order and the order lines of a cart: column
    domains and the products the lines refer to. *)
Definition acceptable (st : Store) (ctx : CartContextValue) : bool :=
  fits_decimal_10_2 (totalPrice ctx)
  && forallb (fun i => fits_integer (CartItem.quantity i)
                       && fits_decimal_10_2 (Products.price (CartItem.product i))
                       && product_exists st (CartItem.product_id i))
             (items ctx).

(** Successive [addToCart] calls for one product. *)
Fixpoint addAll (user : option User.t) (productId : uuid) (qs : list Z)
  : Client unit :=
  match qs with
  | [] => ret tt
  | q :: rest => addToCart user productId q ;;; addAll user productId rest
  end.

(** One thing that can happen to the store: some client, signed in or
    not, sends some request, or catalogue management changes a price. *)
Inductive step : Store -> Store -> Prop :=
| step_request (s : Session) (A : Type) (r : Request A) (st : Store) :
    step st (fst (exec s r st))
| step_catalog (pid : uuid) (v : Z) (st : Store) :
    step st (catalog_set_price pid v st).

Inductive steps : Store -> Store -> Prop :=
| steps_refl (st : Store) : steps st st
| steps_next (st st' st'' : Store) :
    steps st st' -> step st' st'' -> steps st st''.

(** Requests of clients only. *)
Inductive client_steps : Store -> Store -> Prop :=
| client_refl (st : Store) : client_steps st st
| client_next (s : Session) (A : Type) (r : Request A) (st st' : Store) :
    client_steps st st' -> client_steps st (fst (exec s r st')).

(** ** The scenario of the specification

    Product A (10.00) with quantity 2 and product B (5.50) with quantity 1
    in the cart of one user; another user's line is in the store too. *)
Definition productA : Products.Row := Products.mk 100 "A" 1000 15.
Definition productB : Products.Row := Products.mk 101 "B" 550 20.
Definition ana : User.t := User.mk 1 "ana@example.com".
Definition scenario_store : Store :=
  mkStore [productA; productB]
          [CartItems.mk 10 1 100 2; CartItems.mk 11 1 101 1;
           CartItems.mk 12 2 100 7]
          [] [] 20.
Definition scenario_items : list CartItem.t :=
  [CartItem.mk 10 100 2 productA; CartItem.mk 11 101 1 productB].
Definition scenario (schedule : list bool) : World :=
  mkWorld scenario_store scenario_items schedule [].
Definition scenario_order : Orders.Row := Orders.mk 20 1 2550 pending.

(** The run in which the order is stored and the order lines are made to
    fail. *)
Definition line_fault_run : Result Outcome * World :=
  handleCheckout (Some ana) (useCart (scenario [false; true])) Confirmar
                 (scenario [false; true]).

(** A store with no cart line, for the add-to-cart scenario. *)
Definition empty_cart_world : World :=
  mkWorld (mkStore [productA; productB] [] [] [] 20) [] [] [].


(* ===================================================================== *)
(** * 5b. The rest of the screens                                         *)
(* ===================================================================== *)

(** ** What the cart screen renders, app/(tabs)/cart.tsx *)

(** Below the header: the empty-cart notice, or the list of lines with the
    footer that carries the total and the 'Finalizar Compra' button. *)
Inductive CartBody :=
| EmptyCartNotice
| CartList (rows : list CartItem.t) (footer_total : Z).

Inductive CartView :=
| CartLoading                                   (* 'Carregando...' *)
| CartPage (item_count : option Z) (body : CartBody).

(** [CartScreen]'s return value: [if (loading) ...], the header with
    [{totalItems > 0 && ...}], and [items.length === 0 ? ... : ...]. *)
Definition CartScreen (loading : bool) (ctx : CartContextValue) : CartView :=
  if loading then CartLoading
  else CartPage
         (if (0 <? totalItems ctx)%Z then Some (totalItems ctx) else None)
         (if length (items ctx) =? 0 then EmptyCartNotice
          else CartList (items ctx) (totalPrice ctx)).

Definition checkout_button (v : CartView) : bool :=
  match v with
  | CartPage _ (CartList _ _) => true
  | _ => false
  end.

(** ** The tab layout *)

Inductive TabView :=
| RenderNothing                     (* return null *)
| Tabs (badge : option Z).          (* the four tabs, the cart one badged *)

(** [TabLayout]'s return value: nothing while loading and nothing without a
    user; the cart tab carries a badge when [totalItems > 0]. *)
Definition TabLayout (user : option User.t) (loading : bool) (total : Z)
  : TabView :=
  if loading then RenderNothing
  else match user with
       | None => RenderNothing
       | Some _ => Tabs (if (0 <? total)%Z then Some total else None)
       end.

(** The layout's effect: [if (!loading && !user) router.replace(login)]. *)
Definition redirects_to_login (user : option User.t) (loading : bool) : bool :=
  negb loading && match user with None => true | Some _ => false end.

(** ** The profile screen *)

(** The texts of the statuses, as the CHECK constraint and the client
    type spell them. *)
Definition status_name (s : OrderStatus) : string :=
  match s with
  | pending => "pending"
  | confirmed => "confirmed"
  | shipped => "shipped"
  | delivered => "delivered"
  | cancelled => "cancelled"
  end.

Definition getStatusColor (status : string) : string :=
  if String.eqb status "pending" then "#FFA500"
  else if String.eqb status "confirmed" then "#87CEEB"
  else if String.eqb status "shipped" then "#9CA3AF"
  else if String.eqb status "delivered" then "#10B981"
  else if String.eqb status "cancelled" then "#EF4444"
  else "#9CA3AF".

Definition getStatusText (status : string) : string :=
  if String.eqb status "pending" then "Pendente"
  else if String.eqb status "confirmed" then "Confirmado"
  else if String.eqb status "shipped" then "Enviado"
  else if String.eqb status "delivered" then "Entregue"
  else if String.eqb status "cancelled" then "Cancelado"
  else status.

(** The three counters of the profile screen: [orders.length] and
    [orders.filter(o => o.status === ...).length] for 'pending' and
    'delivered'. *)
Record ProfileStats := mkStats
  { pedidos : nat; pendentes : nat; entregues : nat }.

Definition has_status (name : string) (o : Orders.Row) : bool :=
  String.eqb (status_name (Orders.status o)) name.

Definition profile_stats (shown : list Orders.Row) : ProfileStats :=
  {| pedidos := length shown;
     pendentes := length (filter (has_status "pending") shown);
     entregues := length (filter (has_status "delivered") shown) |}.

(** The screen's state, [orders] and [loading], and [loadOrders] as the
    effect it is: without a user it returns at once; otherwise one request,
    [setOrders] on success, and [setLoading(false)] in the [finally]. *)
Record ProfileState := mkProfile
  { shown_orders : list Orders.Row; profile_loading : bool }.

Definition ProfileScreen_loadOrders (user : option User.t) (ps : ProfileState)
  (w : World) : ProfileState * World :=
  match user with
  | None => (ps, w)
  | Some u =>
      match send (session_of user) (SelectOrders (User.id u)) w with
      | (Return (Data rows), w') => (mkProfile (firstn 10 (rev rows)) false, w')
      | (_, w') => (mkProfile (shown_orders ps) false, w')
      end
  end.

(** ** The categories screen *)

Module Category.
Record t := mk { id : uuid; name : string; color_theme : string }.
End Category.

Definition getThemeColor (theme : string) : string :=
  if String.eqb theme "pink" then "#FF69B4"
  else if String.eqb theme "blue" then "#87CEEB"
  else "#9CA3AF".

(** The screen's [categories], [selectedCategory] (the empty string, no
    category's id, is [None]) and [loading]. *)
Record CategoriesState := mkCategories
  { categories : list Category.t;
    selectedCategory : option uuid;
    categories_loading : bool }.

(** [loadCategories], given what the request came back with:
    [setCategories(data || [])], the first category selected when there is
    one, [setLoading(false)] in the [finally]. *)
Definition loadCategories (r : Response (option (list Category.t)))
  (s : CategoriesState) : CategoriesState :=
  match r with
  | Failure _ => mkCategories (categories s) (selectedCategory s) false
  | Data data =>
      mkCategories
        (match data with Some d => d | None => [] end)
        (match data with
         | Some (c :: _) => Some (Category.id c)
         | _ => selectedCategory s
         end)
        false
  end.

(** [renderCategoryTab]: the tab's background colour and text colour. *)
Definition renderCategoryTab (selected : option uuid) (item : Category.t)
  : string * string :=
  let is_selected :=
    match selected with
    | Some c => c =? Category.id item
    | None => false
    end in
  (if is_selected then getThemeColor (Category.color_theme item)
   else "#f0f0f0"%string,
   if is_selected then "#fff"%string else "#666"%string).

(** ** More vocabulary *)

(** Every cart line refers to a product of the catalogue, every order
    line to a stored order and to a product of the catalogue
    ([REFERENCES products(id)], [REFERENCES orders(id)]). *)
Definition refs_ok (st : Store) : Prop :=
  Forall (fun c => product_exists st (CartItems.product_id c) = true)
         (cart_items st)
  /\ Forall (fun l => order_exists st (OrderItems.order_id l) = true
                      /\ product_exists st (OrderItems.product_id l) = true)
            (order_items st).

(** The three requests of a checkout run for user [u], given the order
    the first one created. *)
Definition checkout_requests (u : User.t) (ctx : CartContextValue)
  (order : Orders.Row) : list AnyRequest :=
  [logged (InsertOrder (User.id u) (totalPrice ctx) pending);
   logged (InsertOrderItems (orderItems order (items ctx)));
   logged (DeleteCartItems (User.id u) None)].

(** Catalogue management deleting products (directly, or through the
    deletion of their category): the rows go, and with them the cart lines
    and the order lines that refer to them ([ON DELETE CASCADE]). *)
Definition catalog_delete_products (where_ : Products.Row -> bool) (st : Store)
  : Store :=
  let gone := map Products.id (filter where_ (products st)) in
  let dead pid := existsb (Nat.eqb pid) gone in
  set_products (filter (fun r => negb (where_ r)) (products st))
    (set_cart_items
       (filter (fun r => negb (dead (CartItems.product_id r))) (cart_items st))
       (set_order_items
          (filter (fun l => negb (dead (OrderItems.product_id l)))
                  (order_items st))
          st)).

(** Everything that can happen to the store: a request of some client, a
    price change, or a deletion of products by catalogue management. *)
Inductive change : Store -> Store -> Prop :=
| change_request (s : Session) (A : Type) (r : Request A) (st : Store) :
    change st (fst (exec s r st))
| change_price (pid : uuid) (v : Z) (st : Store) :
    change st (catalog_set_price pid v st)
| change_delete (where_ : Products.Row -> bool) (st : Store) :
    change st (catalog_delete_products where_ st).



(* ===================================================================== *)
(** * 6. Facts about the access policies                                  *)
(* ===================================================================== *)

Lemma filter_all {A} (f : A -> bool) (l : list A) :
  (forall x, f x = true) -> filter f l = l.
Proof.
  intros Hf. induction l as [|x l IH]; simpl; [reflexivity|].
  rewrite Hf, IH. reflexivity.
Qed.

Lemma filter_none {A} (f : A -> bool) (l : list A) :
  (forall x, f x = false) -> filter f l = [].
Proof.
  intros Hf. induction l as [|x l IH]; simpl; [reflexivity|].
  rewrite Hf. exact IH.
Qed.

Lemma map_fixed {A} (f : A -> A) (l : list A) :
  (forall x, f x = x) -> map f l = l.
Proof.
  intros Hf. induction l as [|x l IH]; simpl; [reflexivity|].
  rewrite Hf, IH. reflexivity.
Qed.

Lemma store_eta (st : Store) :
  mkStore (products st) (cart_items st) (orders st) (order_items st)
          (next_uuid st) = st.
Proof. destruct st; reflexivity. Qed.

(** No policy lets anyone update or delete an order, an order line or a
    product. *)
Lemma no_update_orders st s k : permitted st s tbl_orders UPDATE k = false.
Proof. destruct s; reflexivity. Qed.
Lemma no_delete_orders st s k : permitted st s tbl_orders DELETE k = false.
Proof. destruct s; reflexivity. Qed.
Lemma no_update_order_items st s k :
  permitted st s tbl_order_items UPDATE k = false.
Proof. destruct s; reflexivity. Qed.
Lemma no_delete_order_items st s k :
  permitted st s tbl_order_items DELETE k = false.
Proof. destruct s; reflexivity. Qed.
Lemma no_update_products st s k : permitted st s tbl_products UPDATE k = false.
Proof. destruct s; reflexivity. Qed.
Lemma no_delete_products st s k : permitted st s tbl_products DELETE k = false.
Proof. destruct s; reflexivity. Qed.

(** A signed-in user reaches exactly the rows they own. *)
Lemma own_row_only st u v (c : Command) :
  permitted st (Some u) tbl_cart_items c (mkKeys (Some v) None) = (u =? v).
Proof. destruct c; unfold permitted; cbn; destruct (u =? v); reflexivity. Qed.

Lemma own_order_insert st u v :
  permitted st (Some u) tbl_orders INSERT (mkKeys (Some v) None) = (u =? v).
Proof. unfold permitted; cbn; destruct (u =? v); reflexivity. Qed.

Lemma own_order_select st u v :
  permitted st (Some u) tbl_orders SELECT (mkKeys (Some v) None) = (u =? v).
Proof. unfold permitted; cbn; destruct (u =? v); reflexivity. Qed.

Lemma own_order_lines_insert st u oid :
  permitted st (Some u) tbl_order_items INSERT (mkKeys None (Some oid))
  = owns_order st u oid.
Proof. unfold permitted; cbn; destruct (owns_order st u oid); reflexivity. Qed.

Lemma anon_writes_nothing st t c k :
  c <> SELECT -> permitted st None t c k = false.
Proof. destruct t, c; intros H; try reflexivity; congruence. Qed.

Lemma delete_orders_noop s w st : delete_orders s w st = (st, Data tt).
Proof.
  unfold delete_orders.
  assert (H : forall r, w r && permitted st s tbl_orders DELETE (order_keys r)
                        = false)
    by (intros; rewrite no_delete_orders; apply andb_false_r).
  rewrite (filter_none _ _ H). simpl.
  rewrite !filter_all by (intros x; rewrite ?H; reflexivity).
  unfold set_order_items, set_orders; simpl. rewrite store_eta. reflexivity.
Qed.

Lemma update_orders_noop s w p st : update_orders s w p st = (st, Data []).
Proof.
  unfold update_orders. rewrite filter_none, map_fixed.
  - unfold set_orders. rewrite store_eta. reflexivity.
  - intros x. rewrite no_update_orders, andb_false_r. reflexivity.
  - intros x. rewrite no_update_orders. apply andb_false_r.
Qed.

Lemma delete_order_items_noop s w st : delete_order_items s w st = (st, Data tt).
Proof.
  unfold delete_order_items. rewrite filter_all.
  - unfold set_order_items. rewrite store_eta. reflexivity.
  - intros x. rewrite no_delete_order_items, andb_false_r. reflexivity.
Qed.

Lemma update_order_items_noop s w p st :
  update_order_items s w p st = (st, Data []).
Proof.
  unfold update_order_items. rewrite filter_none, map_fixed.
  - unfold set_order_items. rewrite store_eta. reflexivity.
  - intros x. rewrite no_update_order_items, andb_false_r. reflexivity.
  - intros x. rewrite no_update_order_items. apply andb_false_r.
Qed.

Lemma delete_products_noop s w st : delete_products s w st = (st, Data tt).
Proof.
  unfold delete_products.
  assert (H : forall r, w r && permitted st s tbl_products DELETE no_keys
                        = false)
    by (intros; rewrite no_delete_products; apply andb_false_r).
  rewrite (filter_none _ _ H). simpl.
  rewrite !filter_all by (intros x; rewrite ?H; reflexivity).
  unfold set_products, set_cart_items, set_order_items; simpl.
  rewrite store_eta. reflexivity.
Qed.

Lemma update_product_price_noop s w v st :
  fst (update_product_price s w v st) = st.
Proof.
  unfold update_product_price. destruct (fits_decimal_10_2 v); simpl;
    [|reflexivity].
  rewrite map_fixed.
  - unfold set_products. apply store_eta.
  - intros x. rewrite no_update_products, andb_false_r. reflexivity.
Qed.

Ltac break_ifs :=
  repeat match goal with
         | |- context [if ?c then _ else _] => destruct c
         end.

Ltac noop_requests :=
  rewrite ?delete_orders_noop, ?update_orders_noop, ?delete_order_items_noop,
    ?update_order_items_noop, ?delete_products_noop,
    ?update_product_price_noop.

(** Whatever a client sends, the stored orders stay where they are, as
    they are; the table only grows at its end. *)
Lemma exec_orders_grow s A (r : Request A) st :
  exists more, orders (fst (exec s r st)) = orders st ++ more.
Proof.
  destruct r; cbn [exec]; noop_requests; cbn [fst];
    try (exists []; rewrite app_nil_r; reflexivity).
  - unfold insert_cart_item. break_ifs; simpl;
      exists []; rewrite app_nil_r; reflexivity.
  - unfold update_cart_quantity. break_ifs; simpl;
      exists []; rewrite app_nil_r; reflexivity.
  - unfold insert_order. break_ifs; simpl;
      try (exists []; rewrite app_nil_r; reflexivity).
    eexists; reflexivity.
  - unfold insert_order_items. break_ifs; simpl;
      exists []; rewrite app_nil_r; reflexivity.
Qed.

Lemma exec_order_items_grow s A (r : Request A) st :
  exists more, order_items (fst (exec s r st)) = order_items st ++ more.
Proof.
  destruct r; cbn [exec]; noop_requests; cbn [fst];
    try (exists []; rewrite app_nil_r; reflexivity).
  - unfold insert_cart_item. break_ifs; simpl;
      exists []; rewrite app_nil_r; reflexivity.
  - unfold update_cart_quantity. break_ifs; simpl;
      exists []; rewrite app_nil_r; reflexivity.
  - unfold insert_order. break_ifs; simpl;
      exists []; rewrite app_nil_r; reflexivity.
  - unfold insert_order_items. break_ifs; simpl;
      try (exists []; rewrite app_nil_r; reflexivity).
    eexists; reflexivity.
Qed.

Lemma client_steps_orders_grow st st' :
  client_steps st st' -> exists more, orders st' = orders st ++ more.
Proof.
  induction 1 as [st | s A r st st' _ [m IH]].
  - exists []. rewrite app_nil_r. reflexivity.
  - destruct (exec_orders_grow s _ r st') as [m' H].
    exists (m ++ m'). rewrite H, IH, app_assoc. reflexivity.
Qed.

Lemma client_steps_order_items_grow st st' :
  client_steps st st' -> exists more, order_items st' = order_items st ++ more.
Proof.
  induction 1 as [st | s A r st st' _ [m IH]].
  - exists []. rewrite app_nil_r. reflexivity.
  - destruct (exec_order_items_grow s _ r st') as [m' H].
    exists (m ++ m'). rewrite H, IH, app_assoc. reflexivity.
Qed.

(** C10. The policies give a signed-in user SELECT and INSERT on [orders]
    and [order_items] and nothing else; no policy accepts any row of
    either table for UPDATE or DELETE, whoever asks. So an update or a
    delete sent by a client, the owner's compensating delete of an order
    without lines included, changes nothing in the store, and along any
    sequence of client requests every stored order and order line stays in
    place, unmodified. *)
Theorem orders_are_insert_and_select_only :
  granted_commands tbl_orders authenticated = [SELECT; INSERT]
  /\ granted_commands tbl_order_items authenticated = [SELECT; INSERT]
  /\ (forall st s k,
         permitted st s tbl_orders UPDATE k = false
         /\ permitted st s tbl_orders DELETE k = false
         /\ permitted st s tbl_order_items UPDATE k = false
         /\ permitted st s tbl_order_items DELETE k = false)
  /\ (forall s st where_,
         fst (exec s (DeleteOrders where_) st) = st)
  /\ (forall s st where_ p,
         exec s (UpdateOrders where_ p) st = (st, Data []))
  /\ (forall s st where_,
         fst (exec s (DeleteOrderItems where_) st) = st)
  /\ (forall s st where_ p,
         exec s (UpdateOrderItems where_ p) st = (st, Data []))
  /\ (forall st st',
         client_steps st st' ->
         (exists more, orders st' = orders st ++ more)
         /\ (exists more, order_items st' = order_items st ++ more)).
Proof.
  split; [reflexivity|]. split; [reflexivity|].
  split.
  { intros st s k.
    rewrite no_update_orders, no_delete_orders, no_update_order_items,
      no_delete_order_items. repeat split. }
  split. { intros. cbn [exec]. rewrite delete_orders_noop. reflexivity. }
  split. { intros. cbn [exec]. apply update_orders_noop. }
  split. { intros. cbn [exec]. rewrite delete_order_items_noop. reflexivity. }
  split. { intros. cbn [exec]. apply update_order_items_noop. }
  intros st st' H. split.
  - apply client_steps_orders_grow; assumption.
  - apply client_steps_order_items_grow; assumption.
Qed.


(* ===================================================================== *)
(** * 7. Requests as the handlers see them                                *)
(* ===================================================================== *)

Lemma send_eq s A (r : Request A) w :
  send s r w
  = (Return (if hd false (faults w) then Failure network_failure
             else snd (exec s r (db w))),
     mkWorld (if hd false (faults w) then db w else fst (exec s r (db w)))
             (items_state w) (tl (faults w)) (log w ++ [logged r])).
Proof.
  unfold send. destruct (hd false (faults w)); [reflexivity|].
  destruct (exec s r (db w)); reflexivity.
Qed.

(** A request that came back with data was not hit by a fault and ran
    against the store. *)
Lemma send_data s A (r : Request A) w d w1 :
  send s r w = (Return (Data d), w1) ->
  exec s r (db w) = (db w1, Data d)
  /\ items_state w1 = items_state w
  /\ faults w1 = tl (faults w)
  /\ log w1 = log w ++ [logged r].
Proof.
  rewrite send_eq. destruct (hd false (faults w)); intros H.
  - discriminate.
  - injection H as Hd Hw. subst w1. simpl.
    destruct (exec s r (db w)) as [st' resp]; simpl in *. subst resp.
    repeat split.
Qed.

Lemma send_never_throws s A (r : Request A) w e w1 :
  send s r w <> (Throw e, w1).
Proof. rewrite send_eq. discriminate. Qed.

Lemma send_frame s A (r : Request A) w x w1 :
  send s r w = (x, w1) ->
  items_state w1 = items_state w
  /\ faults w1 = tl (faults w)
  /\ log w1 = log w ++ [logged r].
Proof.
  rewrite send_eq. intros H. injection H as _ Hw. subst w1. repeat split.
Qed.

(** ** What an accepted or refused insert does to the store *)

Lemma insert_order_data s u total status st st' row :
  insert_order s u total status st = (st', Data row) ->
  s = Some u
  /\ fits_decimal_10_2 total = true
  /\ row = Orders.mk (next_uuid st) u total status
  /\ st' = mkStore (products st) (cart_items st) (orders st ++ [row])
                   (order_items st) (next_uuid st + 1).
Proof.
  unfold insert_order.
  destruct (fits_decimal_10_2 total) eqn:Hfit; simpl; [|discriminate].
  destruct s as [v|].
  - unfold order_keys at 1; simpl. rewrite own_order_insert.
    destruct (v =? u) eqn:Hv; simpl; [|discriminate].
    apply Nat.eqb_eq in Hv. subst v.
    unfold order_keys; simpl. rewrite own_order_select, Nat.eqb_refl. simpl.
    intros H. injection H as H1 H2. subst. repeat split.
  - rewrite anon_writes_nothing by discriminate. simpl. discriminate.
Qed.

Lemma insert_order_failure s u total status st st' e :
  insert_order s u total status st = (st', Failure e) -> st' = st.
Proof.
  unfold insert_order. break_ifs; simpl; intros H; try discriminate;
    injection H as H _; auto.
Qed.

Lemma insert_order_items_data s rows st st' d :
  insert_order_items s rows st = (st', Data d) ->
  forallb (fun n => order_exists st (OrderItems.new_order_id n)
                    && product_exists st (OrderItems.new_product_id n)) rows
  = true
  /\ st' = mkStore (products st) (cart_items st) (orders st)
                   (order_items st ++ assign_ids (next_uuid st) rows)
                   (next_uuid st + length rows).
Proof.
  unfold insert_order_items.
  destruct (forallb _ rows); simpl; [|discriminate].
  destruct (forallb _ rows); simpl; [|discriminate].
  destruct (forallb _ rows); simpl; [|discriminate].
  intros H. injection H as H _. subst. split; reflexivity.
Qed.

Lemma insert_order_items_failure s rows st st' e :
  insert_order_items s rows st = (st', Failure e) -> st' = st.
Proof.
  unfold insert_order_items. break_ifs; simpl; intros H; try discriminate;
    injection H as H _; auto.
Qed.

(** A request that came back with an error left the store as it was, for
    the two inserts of checkout. *)
Lemma send_insert_order_failure s u total status w e w1 :
  send s (InsertOrder u total status) w = (Return (Failure e), w1) ->
  db w1 = db w.
Proof.
  rewrite send_eq. destruct (hd false (faults w)); intros H;
    injection H as Hr Hw; subst w1; simpl; [reflexivity|].
  destruct (insert_order s u total status (db w)) as [st' resp] eqn:E.
  simpl in *. subst resp. eapply insert_order_failure; eassumption.
Qed.

Lemma send_insert_order_items_failure s rows w e w1 :
  send s (InsertOrderItems rows) w = (Return (Failure e), w1) ->
  db w1 = db w.
Proof.
  rewrite send_eq. destruct (hd false (faults w)); intros H;
    injection H as Hr Hw; subst w1; simpl; [reflexivity|].
  destruct (insert_order_items s rows (db w)) as [st' resp] eqn:E.
  simpl in *. subst resp. eapply insert_order_items_failure; eassumption.
Qed.

Lemma assign_ids_length base rows : length (assign_ids base rows) = length rows.
Proof.
  revert base. induction rows as [|n rows IH]; intros base; simpl;
    [reflexivity|]. rewrite IH. reflexivity.
Qed.

Lemma orderItems_length order its : length (orderItems order its) = length its.
Proof. unfold orderItems. apply length_map. Qed.

(** ** The shape of a checkout run *)

Lemma placeOrder_run u ctx w :
  placeOrder (Some u) ctx w
  = match send (Some (User.id u))
               (InsertOrder (User.id u) (totalPrice ctx) pending) w with
    | (Return (Data order), w1) =>
        match send (Some (User.id u))
                   (InsertOrderItems (orderItems order (items ctx))) w1 with
        | (Return (Data _), w2) =>
            match clearCart (Some u) w2 with
            | (Return _, w3) => (Return AlertSucesso, w3)
            | (Throw e, w3) => (Throw e, w3)
            end
        | (Return (Failure e), w2) => (Throw (PostgrestError e), w2)
        | (Throw e, w2) => (Throw e, w2)
        end
    | (Return (Failure e), w1) => (Throw (PostgrestError e), w1)
    | (Throw e, w1) => (Throw e, w1)
    end.
Proof.
  unfold placeOrder, bind, non_null, ret, session_of; simpl.
  destruct (send _ _ w) as [[[order|e]|e] w1]; simpl; try reflexivity.
  destruct (send _ _ w1) as [[[d|e]|e] w2]; simpl; reflexivity.
Qed.

Lemma placeOrder_no_user ctx w : placeOrder None ctx w = (Throw TypeError, w).
Proof. reflexivity. Qed.

Lemma clearCart_run u w :
  clearCart (Some u) w
  = match send (Some (User.id u)) (DeleteCartItems (User.id u) None) w with
    | (Return (Data _), w1) =>
        (Return tt, mkWorld (db w1) [] (faults w1) (log w1))
    | (Return (Failure e), w1) => (Throw (PostgrestError e), w1)
    | (Throw e, w1) => (Throw e, w1)
    end.
Proof.
  unfold clearCart, bind, session_of; simpl.
  destruct (send _ _ w) as [[[d|e]|e] w1]; reflexivity.
Qed.

Lemma nonempty_length {A} (l : list A) : l <> [] -> (length l =? 0) = false.
Proof. destruct l; [congruence|reflexivity]. Qed.

(** A run that ends with the success alert went through all three
    requests, each of which came back with data. *)
Lemma success_inv user ctx choice w w' :
  handleCheckout user ctx choice w = (Return AlertSucesso, w') ->
  exists u order w1 w2 w3,
    user = Some u /\ choice = Confirmar /\ items ctx <> []
    /\ send (Some (User.id u))
            (InsertOrder (User.id u) (totalPrice ctx) pending) w
       = (Return (Data order), w1)
    /\ send (Some (User.id u))
            (InsertOrderItems (orderItems order (items ctx))) w1
       = (Return (Data tt), w2)
    /\ send (Some (User.id u)) (DeleteCartItems (User.id u) None) w2
       = (Return (Data tt), w3)
    /\ w' = mkWorld (db w3) [] (faults w3) (log w3).
Proof.
  unfold handleCheckout.
  destruct (length (items ctx) =? 0) eqn:Hlen; [discriminate|].
  assert (Hne : items ctx <> [])
    by (intros E; rewrite E in Hlen; discriminate).
  destruct choice; [discriminate|].
  unfold try_catch.
  destruct user as [u|]; [|rewrite placeOrder_no_user; discriminate].
  rewrite placeOrder_run.
  destruct (send _ _ w) as [[[order|e]|e] w1] eqn:E1; try discriminate.
  destruct (send _ _ w1) as [[[[]|e]|e] w2] eqn:E2; try discriminate.
  rewrite clearCart_run.
  destruct (send _ _ w2) as [[[[]|e]|e] w3] eqn:E3; try discriminate.
  intros H. injection H as H. subst w'.
  exists u, order, w1, w2, w3. auto 10.
Qed.

(** The run in which the order is stored and its lines are refused. *)
Lemma order_line_failure_run u ctx w order w1 e w2 :
  items ctx <> [] ->
  send (Some (User.id u)) (InsertOrder (User.id u) (totalPrice ctx) pending) w
  = (Return (Data order), w1) ->
  send (Some (User.id u)) (InsertOrderItems (orderItems order (items ctx))) w1
  = (Return (Failure e), w2) ->
  handleCheckout (Some u) ctx Confirmar w = (Return AlertErro, w2)
  /\ order = Orders.mk (next_uuid (db w)) (User.id u) (totalPrice ctx) pending
  /\ db w2 = mkStore (products (db w)) (cart_items (db w))
                     (orders (db w) ++ [order]) (order_items (db w))
                     (next_uuid (db w) + 1)
  /\ items_state w2 = items_state w
  /\ log w2 = log w
              ++ [logged (InsertOrder (User.id u) (totalPrice ctx) pending);
                  logged (InsertOrderItems (orderItems order (items ctx)))].
Proof.
  intros Hne H1 H2.
  split.
  { unfold handleCheckout, try_catch. rewrite (nonempty_length _ Hne).
    rewrite placeOrder_run, H1, H2. reflexivity. }
  pose proof (send_insert_order_items_failure _ _ _ _ _ H2) as Hdb.
  destruct (send_frame _ _ _ _ _ _ H2) as (Hi2 & _ & Hl2).
  destruct (send_data _ _ _ _ _ _ H1) as (Hx & Hi1 & _ & Hl1).
  cbn [exec] in Hx. apply insert_order_data in Hx.
  destruct Hx as (_ & _ & Ho & Hst).
  split; [exact Ho|]. split; [congruence|]. split; [congruence|].
  rewrite Hl2, Hl1, <- app_assoc. reflexivity.
Qed.

Lemma select_own_orders u st :
  snd (select_orders (Some u) u st)
  = Data (filter (fun r => Orders.user_id r =? u) (orders st)).
Proof.
  unfold select_orders; simpl. f_equal. apply filter_ext. intros r.
  unfold order_keys. rewrite own_order_select.
  rewrite Nat.eqb_sym. destruct (u =? Orders.user_id r); reflexivity.
Qed.

(** The newest order of a user heads that user's order history. *)
Lemma loadOrders_newest u st row :
  Orders.user_id row = User.id u ->
  hd_error (loadOrders (Some u)
              (mkStore (products st) (cart_items st) (orders st ++ [row])
                       (order_items st) (next_uuid st + 1)))
  = Some row.
Proof.
  intros Hu. unfold loadOrders, session_of; simpl option_map.
  rewrite select_own_orders. simpl orders.
  rewrite filter_app. simpl. rewrite Hu, Nat.eqb_refl.
  rewrite rev_app_distr. reflexivity.
Qed.

Lemma fresh_order_has_no_lines st :
  order_ids_fresh st ->
  filter (fun l => OrderItems.order_id l =? next_uuid st) (order_items st) = [].
Proof.
  unfold order_ids_fresh. intros H.
  induction H as [|l ls Hl _ IH]; simpl; [reflexivity|].
  destruct (Nat.eqb_spec (OrderItems.order_id l) (next_uuid st)); [lia|exact IH].
Qed.


(* ===================================================================== *)
(** * 8. Checkout: the failure paths                                      *)
(* ===================================================================== *)

(** C1 (as the code has it). When the order insert succeeds and the
    order-line insert then fails, the handler shows the error alert and
    sends nothing more: no delete is issued, the order row just created
    stays in the store without any line, and it heads the user's order
    history. *)
Theorem line_failure_leaves_the_order u ctx w order w1 e w2 :
  items ctx <> [] ->
  send (Some (User.id u)) (InsertOrder (User.id u) (totalPrice ctx) pending) w
  = (Return (Data order), w1) ->
  send (Some (User.id u)) (InsertOrderItems (orderItems order (items ctx))) w1
  = (Return (Failure e), w2) ->
  handleCheckout (Some u) ctx Confirmar w = (Return AlertErro, w2)
  /\ log w2 = log w
              ++ [logged (InsertOrder (User.id u) (totalPrice ctx) pending);
                  logged (InsertOrderItems (orderItems order (items ctx)))]
  /\ orders (db w2) = orders (db w) ++ [order]
  /\ order_items (db w2) = order_items (db w)
  /\ hd_error (loadOrders (Some u) (db w2)) = Some order
  /\ (order_ids_fresh (db w) -> lines_of (Orders.id order) (db w2) = []).
Proof.
  intros Hne H1 H2.
  destruct (@order_line_failure_run u ctx w order w1 e w2 Hne H1 H2) as (Hrun & Ho & Hdb & _ & Hlog).
  split; [exact Hrun|]. split; [exact Hlog|].
  rewrite Hdb. simpl. repeat split.
  - apply loadOrders_newest. rewrite Ho. reflexivity.
  - intros Hf. unfold lines_of. simpl. rewrite Ho. simpl.
    apply fresh_order_has_no_lines. exact Hf.
Qed.

Lemma line_failure_leaves_the_order_witness :
  handleCheckout (Some ana) (useCart (scenario [false; true])) Confirmar
                 (scenario [false; true])
  = (Return AlertErro, snd line_fault_run)
  /\ orders (db (snd line_fault_run)) = [] ++ [scenario_order].
Proof.
  pose proof
    (@line_failure_leaves_the_order ana (useCart (scenario [false; true]))
       (scenario [false; true]) scenario_order
       (mkWorld (mkStore [productA; productB] (cart_items scenario_store)
                         [scenario_order] [] 21)
                scenario_items [true]
                [logged (InsertOrder 1 2550 pending)])
       network_failure (snd line_fault_run)) as H.
  destruct H as (H1 & _ & H2 & _).
  - simpl. discriminate.
  - reflexivity.
  - reflexivity.
  - split; assumption.
Defined.

(** C1, counterexample. In the scenario of the specification, with the
    order-line insert made to fail after the order insert succeeded, the run
    ends with the error alert after two requests, none of them a delete,
    and the order created by the run is still stored, without lines, and
    shown in the order history. *)
Lemma rollback_counterexample :
  fst line_fault_run = Return AlertErro
  /\ log (snd line_fault_run)
     = [logged (InsertOrder 1 2550 pending);
        logged (InsertOrderItems
                  [OrderItems.mkInsert 20 100 2 1000;
                   OrderItems.mkInsert 20 101 1 550])]
  /\ orders scenario_store = []
  /\ orders (db (snd line_fault_run)) = [scenario_order]
  /\ lines_of (Orders.id scenario_order) (db (snd line_fault_run)) = []
  /\ loadOrders (Some ana) (db (snd line_fault_run)) = [scenario_order].
Proof. repeat split. Qed.

(** C2. A checkout run in which an insert fails leaves the cart alone:
    whether the order insert fails, or the order insert succeeds and the
    order-line insert fails, the run ends with the error alert, the
    requests sent are the inserts only (the cart is not cleared), and the
    [cart_items] rows and the in-memory cart are what they were. *)
Theorem cart_untouched_when_lines_fail u ctx w :
  items ctx <> [] ->
  (forall e w1,
      send (Some (User.id u))
           (InsertOrder (User.id u) (totalPrice ctx) pending) w
      = (Return (Failure e), w1) ->
      handleCheckout (Some u) ctx Confirmar w = (Return AlertErro, w1)
      /\ cart_items (db w1) = cart_items (db w)
      /\ items_state w1 = items_state w
      /\ log w1 = log w
                  ++ [logged (InsertOrder (User.id u) (totalPrice ctx) pending)])
  /\ (forall order w1 e w2,
         send (Some (User.id u))
              (InsertOrder (User.id u) (totalPrice ctx) pending) w
         = (Return (Data order), w1) ->
         send (Some (User.id u))
              (InsertOrderItems (orderItems order (items ctx))) w1
         = (Return (Failure e), w2) ->
         handleCheckout (Some u) ctx Confirmar w = (Return AlertErro, w2)
         /\ cart_items (db w2) = cart_items (db w)
         /\ items_state w2 = items_state w
         /\ log w2
            = log w
              ++ [logged (InsertOrder (User.id u) (totalPrice ctx) pending);
                  logged (InsertOrderItems (orderItems order (items ctx)))]).
Proof.
  intros Hne. split.
  - intros e w1 H1. split.
    { unfold handleCheckout, try_catch. rewrite (nonempty_length _ Hne).
      rewrite placeOrder_run, H1. reflexivity. }
    rewrite (send_insert_order_failure _ _ _ _ _ _ _ H1).
    destruct (send_frame _ _ _ _ _ _ H1) as (Hi & _ & Hl). auto.
  - intros order w1 e w2 H1 H2.
    destruct (@order_line_failure_run u ctx w order w1 e w2 Hne H1 H2) as (Hrun & _ & Hdb & Hi & Hl).
    rewrite Hdb. simpl. auto.
Qed.

Lemma cart_untouched_when_lines_fail_witness :
  handleCheckout (Some ana) (useCart (scenario [false; true])) Confirmar
                 (scenario [false; true])
  = (Return AlertErro, snd line_fault_run)
  /\ cart_items (db (snd line_fault_run)) = cart_items scenario_store.
Proof.
  assert (Hne : items (useCart (scenario [false; true])) <> [])
    by (simpl; discriminate).
  pose proof (proj2 (cart_untouched_when_lines_fail ana
                       (useCart (scenario [false; true]))
                       (scenario [false; true]) Hne)
                scenario_order
                (mkWorld (mkStore [productA; productB]
                                  (cart_items scenario_store)
                                  [scenario_order] [] 21)
                         scenario_items [true]
                         [logged (InsertOrder 1 2550 pending)])
                network_failure (snd line_fault_run)
                eq_refl eq_refl) as H.
  destruct H as (H1 & H2 & _). split; assumption.
Defined.

(** C3. With an empty cart, checkout ends at once with the
    'Carrinho Vazio' alert, whoever the user is and whatever they would have
    answered: the world after is the world before, so no request is sent
    and no table row is written. *)
Theorem empty_cart_checkout_writes_nothing user ctx choice w :
  items ctx = [] ->
  handleCheckout user ctx choice w = (Return AlertCarrinhoVazio, w).
Proof. intros H. unfold handleCheckout. rewrite H. reflexivity. Qed.

Lemma empty_cart_checkout_writes_nothing_witness :
  handleCheckout (Some ana) (useCart empty_cart_world) Confirmar empty_cart_world
  = (Return AlertCarrinhoVazio, empty_cart_world).
Proof.
  apply (@empty_cart_checkout_writes_nothing (Some ana)
           (useCart empty_cart_world) Confirmar empty_cart_world).
  reflexivity.
Defined.

(** C9. Without a signed-in user nothing is written. Checkout: the run
    leaves the world as it was and, once confirmed, ends with an alert
    that reports the failure ('Carrinho Vazio' for an empty cart, 'Erro'
    otherwise, from the failed access to the user's id). Cart operations:
    each one throws before sending any request. *)
Theorem no_identity_no_writes ctx choice w (p : uuid) (q : Z) :
  snd (handleCheckout None ctx choice w) = w
  /\ handleCheckout None ctx Confirmar w
     = (Return (if length (items ctx) =? 0 then AlertCarrinhoVazio
                else AlertErro), w)
  /\ loadCart None w = (Throw LoadError, w)
  /\ (exists e, addToCart None p q w = (Throw e, w))
  /\ (exists e, updateQuantity None p q w = (Throw e, w))
  /\ (exists e, handleUpdateQuantity None p q w = (Throw e, w))
  /\ (exists e, removeFromCart None p w = (Throw e, w))
  /\ (exists e, clearCart None w = (Throw e, w)).
Proof.
  split.
  { unfold handleCheckout. destruct (length (items ctx) =? 0); [reflexivity|].
    destruct choice; reflexivity. }
  split.
  { unfold handleCheckout. destruct (length (items ctx) =? 0); reflexivity. }
  split; [reflexivity|].
  split; [eexists; reflexivity|].
  assert (Hu : exists e, updateQuantity None p q w = (Throw e, w)).
  { unfold updateQuantity. destruct (q <=? 0)%Z; eexists; reflexivity. }
  split; [exact Hu|]. split; [exact Hu|].
  split; eexists; reflexivity.
Qed.


(* ===================================================================== *)
(** * 9. Checkout: the success path                                       *)
(* ===================================================================== *)

Lemma clear_own_cart u st :
  delete_cart_items (Some u) u None st
  = (set_cart_items
       (filter (fun r => negb (CartItems.user_id r =? u)) (cart_items st)) st,
     Data tt).
Proof.
  unfold delete_cart_items. f_equal. f_equal. apply filter_ext. intros r.
  unfold cart_item_keys. rewrite own_row_only, andb_true_r.
  rewrite (Nat.eqb_sym u). destruct (CartItems.user_id r =? u); reflexivity.
Qed.

Lemma cart_of_cleared u l :
  filter (fun r => CartItems.user_id r =? u)
         (filter (fun r => negb (CartItems.user_id r =? u)) l) = [].
Proof.
  induction l as [|r l IH]; simpl; [reflexivity|].
  destruct (CartItems.user_id r =? u) eqn:E; simpl; [exact IH|].
  rewrite E. exact IH.
Qed.

Lemma cart_of_others_kept u v l :
  v <> u ->
  filter (fun r => CartItems.user_id r =? v)
         (filter (fun r => negb (CartItems.user_id r =? u)) l)
  = filter (fun r => CartItems.user_id r =? v) l.
Proof.
  intros Hvu. induction l as [|r l IH]; simpl; [reflexivity|].
  destruct (Nat.eqb_spec (CartItems.user_id r) u) as [Eu|Eu]; simpl.
  - destruct (Nat.eqb_spec (CartItems.user_id r) v); [congruence|exact IH].
  - destruct (CartItems.user_id r =? v); [rewrite IH|]; auto.
Qed.

(** The stores a successful run goes through. *)
Lemma success_stores user ctx choice w w' :
  handleCheckout user ctx choice w = (Return AlertSucesso, w') ->
  exists u,
    user = Some u /\ choice = Confirmar /\ items ctx <> []
    /\ fits_decimal_10_2 (totalPrice ctx) = true
    /\ let order :=
         Orders.mk (next_uuid (db w)) (User.id u) (totalPrice ctx) pending in
       let rows := assign_ids (next_uuid (db w) + 1)
                              (orderItems order (items ctx)) in
       db w'
       = mkStore (products (db w))
                 (filter (fun r => negb (CartItems.user_id r =? User.id u))
                         (cart_items (db w)))
                 (orders (db w) ++ [order])
                 (order_items (db w) ++ rows)
                 (next_uuid (db w) + 1 + length (items ctx))
       /\ items_state w' = []
       /\ log w'
          = log w ++ [logged (InsertOrder (User.id u) (totalPrice ctx) pending);
                      logged (InsertOrderItems (orderItems order (items ctx)));
                      logged (DeleteCartItems (User.id u) None)].
Proof.
  intros H. apply success_inv in H.
  destruct H as (u & order & w1 & w2 & w3 & Hu & Hc & Hne & H1 & H2 & H3 & Hw).
  exists u. repeat (split; [assumption|]).
  apply send_data in H1. destruct H1 as (X1 & _ & _ & L1).
  apply send_data in H2. destruct H2 as (X2 & _ & _ & L2).
  apply send_data in H3. destruct H3 as (X3 & _ & _ & L3).
  cbn [exec] in X1, X2, X3.
  apply insert_order_data in X1. destruct X1 as (_ & Hfit & Ho & S1).
  apply insert_order_items_data in X2. destruct X2 as (_ & S2).
  rewrite clear_own_cart in X3. injection X3 as S3.
  split; [exact Hfit|]. cbn zeta. rewrite <- Ho.
  subst w'. simpl. split; [|split; [reflexivity|]].
  - rewrite <- S3, S2, S1. unfold set_cart_items. simpl.
    rewrite orderItems_length. reflexivity.
  - rewrite L3, L2, L1, <- !app_assoc. reflexivity.
Qed.

Lemma assign_ids_order_id base order its :
  Forall (fun l => OrderItems.order_id l = Orders.id order)
         (assign_ids base (orderItems order its)).
Proof.
  revert base. induction its as [|i its IH]; intros base; simpl.
  - constructor.
  - constructor; [reflexivity|apply IH].
Qed.

(** C4. A checkout of a non-empty cart that ends with the success alert
    has added exactly one row to [orders], with status [pending], the
    user's id and the cart's [totalPrice] as [total_amount], has added
    exactly one row to [order_items] per cart line, all of them for that
    order, and has left the user without any [cart_items] row and with an
    empty in-memory cart; the cart lines of other users are as they
    were. *)
Theorem successful_checkout_effects user ctx choice w w' :
  items ctx <> [] ->
  handleCheckout user ctx choice w = (Return AlertSucesso, w') ->
  exists u order rows,
    user = Some u
    /\ orders (db w') = orders (db w) ++ [order]
    /\ Orders.status order = pending
    /\ Orders.total_amount order = totalPrice ctx
    /\ Orders.user_id order = User.id u
    /\ order_items (db w') = order_items (db w) ++ rows
    /\ length rows = length (items ctx)
    /\ Forall (fun l => OrderItems.order_id l = Orders.id order) rows
    /\ cart_of (User.id u) (db w') = []
    /\ (forall v, v <> User.id u -> cart_of v (db w') = cart_of v (db w))
    /\ items_state w' = [].
Proof.
  intros _ H. apply success_stores in H.
  destruct H as (u & Hu & _ & _ & _ & Hdb & Hi & _).
  exists u. eexists. eexists. split; [exact Hu|].
  rewrite Hdb. unfold cart_of. simpl.
  split; [reflexivity|]. split; [reflexivity|]. split; [reflexivity|].
  split; [reflexivity|]. split; [reflexivity|].
  split; [rewrite assign_ids_length; apply orderItems_length|].
  split; [apply assign_ids_order_id|].
  split; [apply cart_of_cleared|].
  split; [|exact Hi].
  intros v Hv. apply cart_of_others_kept. exact Hv.
Qed.

Lemma no_faults_hd w : no_faults w -> hd false (faults w) = false.
Proof.
  unfold no_faults. destruct (faults w) as [|b fs]; [reflexivity|].
  intros H. inversion H; assumption.
Qed.

Lemma no_faults_tl w st its l :
  no_faults w -> no_faults (mkWorld st its (tl (faults w)) l).
Proof.
  unfold no_faults; simpl. destruct (faults w) as [|b fs]; simpl; [auto|].
  intros H. inversion H; assumption.
Qed.

(** Without a fault a request is answered by the store. *)
Lemma send_no_fault s A (r : Request A) w :
  no_faults w ->
  send s r w
  = (Return (snd (exec s r (db w))),
     mkWorld (fst (exec s r (db w))) (items_state w) (tl (faults w))
             (log w ++ [logged r]))
  /\ no_faults (mkWorld (fst (exec s r (db w))) (items_state w)
                        (tl (faults w)) (log w ++ [logged r])).
Proof.
  intros H. rewrite send_eq, (no_faults_hd _ H).
  split; [reflexivity|]. apply no_faults_tl. exact H.
Qed.

Lemma insert_order_accepts u total status st :
  fits_decimal_10_2 total = true ->
  insert_order (Some u) u total status st
  = (mkStore (products st) (cart_items st)
             (orders st ++ [Orders.mk (next_uuid st) u total status])
             (order_items st) (next_uuid st + 1),
     Data (Orders.mk (next_uuid st) u total status)).
Proof.
  intros Hfit. unfold insert_order. rewrite Hfit. simpl.
  unfold order_keys; simpl.
  rewrite own_order_insert, own_order_select, Nat.eqb_refl. reflexivity.
Qed.

Lemma owns_last_order st row :
  owns_order (mkStore (products st) (cart_items st) (orders st ++ [row])
                      (order_items st) (next_uuid st + 1))
             (Orders.user_id row) (Orders.id row) = true.
Proof.
  unfold owns_order; simpl. rewrite existsb_app. simpl.
  rewrite !Nat.eqb_refl. simpl. apply orb_true_r.
Qed.

Lemma last_order_exists st row :
  order_exists (mkStore (products st) (cart_items st) (orders st ++ [row])
                        (order_items st) (next_uuid st + 1))
               (Orders.id row) = true.
Proof.
  unfold order_exists; simpl. rewrite existsb_app. simpl.
  rewrite Nat.eqb_refl. simpl. apply orb_true_r.
Qed.

Ltac forallb_holds E :=
  match type of E with
  | forallb ?P ?l = false =>
      let H := fresh "H" in
      assert (H : forallb P l = true);
      [apply forallb_forall|rewrite H in E; discriminate E]
  end.

Lemma insert_order_items_accepts u st order its :
  owns_order st u (Orders.id order) = true ->
  order_exists st (Orders.id order) = true ->
  forallb (fun i => fits_integer (CartItem.quantity i)
                    && fits_decimal_10_2 (Products.price (CartItem.product i))
                    && product_exists st (CartItem.product_id i)) its = true ->
  insert_order_items (Some u) (orderItems order its) st
  = (mkStore (products st) (cart_items st) (orders st)
             (order_items st
              ++ assign_ids (next_uuid st) (orderItems order its))
             (next_uuid st + length its),
     Data tt).
Proof.
  intros Hown Hex Hits. unfold insert_order_items.
  assert (Hi : forall i, In i its ->
                         fits_integer (CartItem.quantity i) = true
                         /\ fits_decimal_10_2
                              (Products.price (CartItem.product i)) = true
                         /\ product_exists st (CartItem.product_id i) = true).
  { intros i Hin. rewrite forallb_forall in Hits. specialize (Hits i Hin).
    apply andb_prop in Hits. destruct Hits as [Hq Hp].
    apply andb_prop in Hq. destruct Hq as [Hq Hd]. auto. }
  destruct (forallb _ (orderItems order its)) eqn:E1.
  2:{ forallb_holds E1. intros n Hn. apply in_map_iff in Hn.
      destruct Hn as (i & <- & Hin). simpl.
      destruct (Hi i Hin) as (-> & -> & _). reflexivity. }
  clear E1. cbn [negb]. destruct (forallb _ (orderItems order its)) eqn:E2.
  2:{ forallb_holds E2. intros n Hn. apply in_map_iff in Hn.
      destruct Hn as (i & <- & Hin). cbn beta. cbn [OrderItems.new_order_id].
      rewrite own_order_lines_insert. exact Hown. }
  clear E2. cbn [negb]. destruct (forallb _ (orderItems order its)) eqn:E3.
  2:{ forallb_holds E3. intros n Hn. apply in_map_iff in Hn.
      destruct Hn as (i & <- & Hin). simpl.
      destruct (Hi i Hin) as (_ & _ & ->). rewrite Hex. reflexivity. }
  cbn [negb]. unfold bump_uuid, set_order_items. simpl.
  rewrite orderItems_length. reflexivity.
Qed.

(** A signed-in user with a non-empty cart that the store accepts, on a
    connection without faults, gets the success alert. *)
Lemma checkout_succeeds u ctx w :
  items ctx <> [] -> no_faults w -> acceptable (db w) ctx = true ->
  exists w', handleCheckout (Some u) ctx Confirmar w = (Return AlertSucesso, w').
Proof.
  intros Hne Hf Hacc. unfold acceptable in Hacc.
  apply andb_prop in Hacc. destruct Hacc as [Htot Hits].
  unfold handleCheckout, try_catch. rewrite (nonempty_length _ Hne).
  rewrite placeOrder_run.
  destruct (send_no_fault (Some (User.id u)) _
              (InsertOrder (User.id u) (totalPrice ctx) pending) w Hf)
    as [E1 Hf1].
  cbn [exec] in E1, Hf1. rewrite (insert_order_accepts _ _ _ _ Htot) in E1, Hf1.
  cbn [fst snd] in E1, Hf1. rewrite E1.
  match type of Hf1 with no_faults ?x => set (w1 := x) in * end.
  set (order := Orders.mk (next_uuid (db w)) (User.id u) (totalPrice ctx)
                          pending) in *.
  destruct (send_no_fault (Some (User.id u)) _
              (InsertOrderItems (orderItems order (items ctx))) w1 Hf1)
    as [E2 Hf2].
  cbn [exec] in E2, Hf2.
  pose proof (insert_order_items_accepts (User.id u) (db w1) order (items ctx)
                (owns_last_order (db w) order)
                (last_order_exists (db w) order) Hits) as X2.
  rewrite X2 in E2, Hf2.
  cbn [fst snd] in E2, Hf2. rewrite E2.
  rewrite clearCart_run.
  match type of Hf2 with no_faults ?x => set (w2 := x) in * end.
  destruct (send_no_fault (Some (User.id u)) _
              (DeleteCartItems (User.id u) None) w2 Hf2) as [E3 _].
  rewrite E3. cbn [exec]. rewrite clear_own_cart. cbn [fst snd].
  eexists; reflexivity.
Qed.

Lemma successful_checkout_effects_witness :
  exists w',
    handleCheckout (Some ana) (useCart (scenario [])) Confirmar (scenario [])
    = (Return AlertSucesso, w')
    /\ orders (db w') = [scenario_order]
    /\ length (order_items (db w')) = 2
    /\ cart_of 1 (db w') = [].
Proof.
  eexists. split; [reflexivity|].
  destruct (successful_checkout_effects (Some ana) (useCart (scenario []))
              Confirmar (scenario [])
              (snd (handleCheckout (Some ana) (useCart (scenario []))
                                   Confirmar (scenario []))))
    as (u & order & rows & _).
  - simpl. discriminate.
  - reflexivity.
  - repeat split.
Defined.

Lemma new_lines_sum base order its :
  sumZ (map OrderItems.line_total (assign_ids base (orderItems order its)))
  = sumZ (map line_price its).
Proof.
  revert base. induction its as [|i its IH]; intros base; simpl;
    [reflexivity|].
  rewrite IH. reflexivity.
Qed.

Lemma new_lines_belong base order its :
  filter (fun l => OrderItems.order_id l =? Orders.id order)
         (assign_ids base (orderItems order its))
  = assign_ids base (orderItems order its).
Proof.
  revert base. induction its as [|i its IH]; intros base; simpl;
    [reflexivity|].
  rewrite Nat.eqb_refl, IH. reflexivity.
Qed.

Lemma Forall_lt_weaken {A} (f : A -> nat) (n m : nat) (l : list A) :
  n <= m -> Forall (fun x => f x < n) l -> Forall (fun x => f x < m) l.
Proof.
  intros Hnm H. induction H as [|x l Hx _ IH]; constructor; [lia|exact IH].
Qed.

Lemma order_exists_fresh st oid :
  Forall (fun o => Orders.id o < next_uuid st) (orders st) ->
  order_exists st oid = true -> oid < next_uuid st.
Proof.
  intros Hf He. unfold order_exists in He. apply existsb_exists in He.
  destruct He as (o & Hin & Heq). apply Nat.eqb_eq in Heq. subst oid.
  rewrite Forall_forall in Hf. apply Hf. exact Hin.
Qed.

Lemma assign_ids_fresh base rows n :
  Forall (fun r => OrderItems.new_order_id r < n) rows ->
  Forall (fun l => OrderItems.order_id l < n) (assign_ids base rows).
Proof.
  intros H. revert base.
  induction H as [|r rows Hr _ IH]; intros base; simpl; constructor;
    [exact Hr|apply IH].
Qed.

(** Freshness of ids is kept by every client request, so it holds in
    every store that clients have built up from one without orders. *)
Lemma exec_ids_fresh s A (r : Request A) st :
  ids_fresh st -> ids_fresh (fst (exec s r st)).
Proof.
  intros H. destruct r; cbn [exec]; noop_requests; cbn [fst]; try exact H.
  - (* InsertCartItem *)
    unfold insert_cart_item. break_ifs; cbn [fst]; try exact H.
    destruct H as [Ho Hl]. split; unfold order_ids_fresh in *; simpl;
      eapply Forall_lt_weaken; try eassumption; lia.
  - (* UpdateCartQuantity *)
    unfold update_cart_quantity. break_ifs; exact H.
  - (* InsertOrder *)
    unfold insert_order. break_ifs; cbn [fst]; try exact H.
    destruct H as [Ho Hl]. split; unfold order_ids_fresh in *; simpl.
    + apply Forall_app. split.
      * eapply Forall_lt_weaken; try eassumption; lia.
      * constructor; [simpl; lia|constructor].
    + eapply Forall_lt_weaken; try eassumption; lia.
  - (* InsertOrderItems *)
    unfold insert_order_items.
    destruct (negb (forallb _ rows)); [exact H|].
    destruct (negb (forallb _ rows)); [exact H|].
    destruct (forallb (fun n => order_exists st (OrderItems.new_order_id n)
                                && product_exists st
                                     (OrderItems.new_product_id n)) rows)
      eqn:Hfk; cbn [negb fst]; [|exact H].
    destruct H as [Ho Hl]. split; unfold order_ids_fresh in *; simpl.
    + eapply Forall_lt_weaken; try eassumption; lia.
    + apply Forall_app. split.
      * eapply Forall_lt_weaken; try eassumption; lia.
      * apply assign_ids_fresh. apply Forall_forall. intros n Hn.
        rewrite forallb_forall in Hfk. specialize (Hfk n Hn).
        apply andb_prop in Hfk. destruct Hfk as [Hfk _].
        pose proof (order_exists_fresh st _ Ho Hfk). lia.
Qed.

Lemma client_steps_ids_fresh st st' :
  client_steps st st' -> ids_fresh st -> ids_fresh st'.
Proof.
  induction 1 as [st | s A r st st' _ IH]; intros H; [exact H|].
  apply exec_ids_fresh. apply IH. exact H.
Qed.

Lemma clearCart_keeps_orders u w x w' :
  clearCart (Some u) w = (x, w') ->
  orders (db w') = orders (db w) /\ order_items (db w') = order_items (db w).
Proof.
  rewrite clearCart_run, send_eq. cbn [exec].
  destruct (hd false (faults w)); intros H; injection H as _ Hw; subst w';
    cbn; auto.
Qed.

(** What any run of the checkout handler does to [orders] and
    [order_items]. *)
Lemma checkout_run_stores user ctx choice w out w' :
  handleCheckout user ctx choice w = (out, w') ->
  (orders (db w') = orders (db w) /\ order_items (db w') = order_items (db w))
  \/ exists u,
       user = Some u
       /\ orders (db w')
          = orders (db w)
            ++ [Orders.mk (next_uuid (db w)) (User.id u) (totalPrice ctx)
                          pending]
       /\ ((out = Return AlertErro
            /\ order_items (db w') = order_items (db w))
           \/ order_items (db w')
              = order_items (db w)
                ++ assign_ids (next_uuid (db w) + 1)
                     (orderItems
                        (Orders.mk (next_uuid (db w)) (User.id u)
                                   (totalPrice ctx) pending)
                        (items ctx))).
Proof.
  unfold handleCheckout.
  destruct (length (items ctx) =? 0);
    [intros H; injection H as _ <-; left; auto|].
  destruct choice; [intros H; injection H as _ <-; left; auto|].
  unfold try_catch. destruct user as [u|].
  2:{ rewrite placeOrder_no_user. intros H. injection H as _ <-. left. auto. }
  rewrite placeOrder_run.
  destruct (send _ _ w) as [[[order|e]|e] w1] eqn:E1.
  - pose proof (send_data _ _ _ _ _ _ E1) as (X1 & _).
    cbn [exec] in X1. apply insert_order_data in X1.
    destruct X1 as (_ & _ & Ho & S1). subst order.
    destruct (send _ _ w1) as [[[d|e]|e] w2] eqn:E2.
    + pose proof (send_data _ _ _ _ _ _ E2) as (X2 & _).
      cbn [exec] in X2. apply insert_order_items_data in X2.
      destruct X2 as (_ & S2).
      destruct (clearCart (Some u) w2) as [[d'|e] w3] eqn:E3;
        destruct (clearCart_keeps_orders _ _ _ _ E3) as [K1 K2];
        intros H; injection H as _ <-; right; exists u;
        (split; [reflexivity|]); rewrite K1, K2, S2; cbn [orders order_items];
        rewrite S1; cbn [orders order_items next_uuid];
        (split; [reflexivity|]); right; reflexivity.
    + pose proof (send_insert_order_items_failure _ _ _ _ _ E2) as S2.
      intros H. injection H as <- <-. right. exists u.
      split; [reflexivity|]. rewrite S2, S1. cbn [orders order_items].
      split; [reflexivity|]. left. auto.
    + exfalso. exact (send_never_throws _ _ _ _ _ _ E2).
  - pose proof (send_insert_order_failure _ _ _ _ _ _ _ E1) as S1.
    intros H. injection H as _ <-. left. rewrite S1. auto.
  - exfalso. exact (send_never_throws _ _ _ _ _ _ E1).
Qed.

(** C6, counterexample. In the scenario of the specification, with the
    order-line insert made to fail after the order insert succeeded, checkout
    has created an order with a total of 25.50 and no order line: the sum
    over its lines is 0. *)
Lemma order_total_counterexample :
  orders scenario_store = []
  /\ orders (db (snd line_fault_run)) = [scenario_order]
  /\ Orders.total_amount scenario_order = 2550%Z
  /\ lines_of (Orders.id scenario_order) (db (snd line_fault_run)) = []
  /\ sumZ (map OrderItems.line_total
              (lines_of (Orders.id scenario_order) (db (snd line_fault_run))))
     = 0%Z
  /\ Orders.total_amount scenario_order
     <> sumZ (map OrderItems.line_total
                  (lines_of (Orders.id scenario_order)
                            (db (snd line_fault_run)))).
Proof. repeat split. discriminate. Qed.

(** C6 (as the code has it). Whatever way a checkout of the cart the
    provider holds ends, it creates no order or one order, and an order it
    creates carries as [total_amount] the sum of quantity times product
    price over the cart snapshot. When the order-line insert succeeded,
    that is also the sum, over the order lines stored for the order, of
    quantity times recorded price, and those lines are one per cart line;
    when it failed, the run ends with the error alert and the order has no
    line. The lines of an order are found by its id, ids being generated
    fresh. *)
Theorem order_total_is_sum_of_its_lines user choice w out w' :
  order_ids_fresh (db w) ->
  handleCheckout user (useCart w) choice w = (out, w') ->
  orders (db w') = orders (db w)
  \/ exists order,
       orders (db w') = orders (db w) ++ [order]
       /\ Orders.total_amount order = sumZ (map line_price (items_state w))
       /\ ((out = Return AlertErro
            /\ lines_of (Orders.id order) (db w') = [])
           \/ (length (lines_of (Orders.id order) (db w'))
               = length (items_state w)
               /\ Orders.total_amount order
                  = sumZ (map OrderItems.line_total
                              (lines_of (Orders.id order) (db w'))))).
Proof.
  intros Hfresh H. apply checkout_run_stores in H.
  destruct H as [[Ho _] | (u & _ & Ho & Hl)]; [left; exact Ho|].
  right. eexists. split; [exact Ho|].
  cbn [Orders.total_amount Orders.id]. split; [reflexivity|].
  unfold lines_of.
  destruct Hl as [[Hout Hl] | Hl]; rewrite Hl.
  - left. split; [exact Hout|]. apply fresh_order_has_no_lines. exact Hfresh.
  - right. rewrite filter_app, (fresh_order_has_no_lines _ Hfresh).
    cbn [app].
    set (order := Orders.mk (next_uuid (db w)) (User.id u)
                            (totalPrice (useCart w)) pending).
    change (next_uuid (db w)) with (Orders.id order) at 1 3.
    rewrite !new_lines_belong. split.
    + rewrite assign_ids_length, orderItems_length. reflexivity.
    + rewrite new_lines_sum. reflexivity.
Qed.

Lemma order_total_is_sum_of_its_lines_witness :
  exists order,
    orders (db (snd (handleCheckout (Some ana) (useCart (scenario []))
                                    Confirmar (scenario []))))
    = orders (db (scenario [])) ++ [order]
    /\ Orders.total_amount order = 2550%Z.
Proof.
  destruct (order_total_is_sum_of_its_lines (Some ana) Confirmar (scenario [])
              (fst (handleCheckout (Some ana) (useCart (scenario []))
                                   Confirmar (scenario [])))
              (snd (handleCheckout (Some ana) (useCart (scenario []))
                                   Confirmar (scenario []))))
    as [Ho | (order & Ho & Ht & _)].
  - constructor.
  - reflexivity.
  - exfalso. simpl in Ho. discriminate Ho.
  - exists order. split; [exact Ho|]. rewrite Ht. reflexivity.
Defined.



Lemma Forall_filter_keep {A} (P : A -> Prop) (f : A -> bool) (l : list A) :
  Forall P l -> Forall P (filter f l).
Proof.
  intros H. induction H as [|x l Hx _ IH]; simpl; [constructor|].
  destruct (f x); [constructor; assumption|exact IH].
Qed.










(* ===================================================================== *)
(** * 10. The cart: one line per user and product                         *)
(* ===================================================================== *)

Lemma bind_send_no_fault {A B} s (r : Request A) (k : Response A -> Client B) w :
  no_faults w ->
  bind (send s r) k w = k (snd (exec s r (db w))) (answered s r w).
Proof.
  intros H. unfold bind. rewrite (proj1 (send_no_fault s _ r w H)).
  reflexivity.
Qed.

Lemma answered_no_faults {A} s (r : Request A) w :
  no_faults w -> no_faults (answered s r w).
Proof. intros H. apply (proj2 (send_no_fault s _ r w H)). Qed.

Lemma visible_own_cart st u : visible_cart st (Some u) u = cart_of u st.
Proof.
  unfold visible_cart, cart_of. apply filter_ext. intros r.
  unfold cart_item_keys. rewrite own_row_only, (Nat.eqb_sym u).
  destruct (CartItems.user_id r =? u); reflexivity.
Qed.

Lemma find_line u p l :
  find (fun r => CartItems.product_id r =? p)
       (filter (fun r => CartItems.user_id r =? u) l)
  = hd_error (filter (is_line u p) l).
Proof.
  induction l as [|r l IH]; simpl; [reflexivity|]. unfold is_line at 1.
  destruct (CartItems.user_id r =? u); simpl; [|exact IH].
  destruct (CartItems.product_id r =? p); simpl; [reflexivity|exact IH].
Qed.

Lemma select_own_line u p st :
  select_cart_item (Some u) u p st = (st, Data (hd_error (lines u p st))).
Proof.
  unfold select_cart_item. rewrite visible_own_cart. unfold cart_of.
  rewrite find_line. reflexivity.
Qed.

(** On the lines of (u, p) the policies accept user [u]. *)
Lemma own_line_permitted st u p c r :
  is_line u p r && permitted st (Some u) tbl_cart_items c (cart_item_keys r)
  = is_line u p r.
Proof.
  unfold cart_item_keys. rewrite own_row_only. unfold is_line.
  rewrite (Nat.eqb_sym u).
  destruct (CartItems.user_id r =? u); simpl;
    [apply andb_true_r|reflexivity].
Qed.

Lemma update_own_line u p q st :
  fits_integer q = true ->
  update_cart_quantity (Some u) u p q st
  = (set_cart_items (map (with_quantity u p q) (cart_items st)) st,
     Data (map (set_quantity q) (lines u p st))).
Proof.
  intros Hfit. unfold update_cart_quantity. rewrite Hfit. cbn [negb].
  f_equal.
  - f_equal. apply map_ext. intros r. unfold with_quantity.
    rewrite own_line_permitted. reflexivity.
  - f_equal. f_equal. apply filter_ext. intros r. apply own_line_permitted.
Qed.

Lemma insert_own_line u p q st :
  fits_integer q = true -> product_exists st p = true -> lines u p st = [] ->
  insert_cart_item (Some u) u p q st
  = (mkStore (products st)
             (cart_items st ++ [CartItems.mk (next_uuid st) u p q])
             (orders st) (order_items st) (next_uuid st + 1),
     Data tt).
Proof.
  intros Hfit Hp Hnone. unfold insert_cart_item. rewrite Hfit. cbn [negb].
  unfold cart_item_keys. cbn [CartItems.user_id].
  rewrite own_row_only, Nat.eqb_refl, Hp. cbn [negb].
  assert (E : existsb (is_line u p) (cart_items st) = false).
  { unfold lines in Hnone. induction (cart_items st) as [|r l IH];
      simpl in *; [reflexivity|].
    destruct (is_line u p r); [discriminate|]. apply IH. exact Hnone. }
  rewrite E. reflexivity.
Qed.

Lemma delete_own_line u p st :
  delete_cart_items (Some u) u (Some p) st
  = (set_cart_items (filter (fun r => negb (is_line u p r)) (cart_items st)) st,
     Data tt).
Proof.
  unfold delete_cart_items. f_equal. f_equal. apply filter_ext. intros r.
  f_equal. rewrite <- (own_line_permitted st u p DELETE r).
  unfold is_line. reflexivity.
Qed.

Lemma is_line_with_quantity u p q u' p' r :
  is_line u' p' (with_quantity u p q r) = is_line u' p' r.
Proof. unfold with_quantity. destruct (is_line u p r); reflexivity. Qed.

Lemma lines_with_quantity u p q u' p' l :
  filter (is_line u' p') (map (with_quantity u p q) l)
  = map (with_quantity u p q) (filter (is_line u' p') l).
Proof.
  induction l as [|r l IH]; simpl; [reflexivity|].
  rewrite is_line_with_quantity.
  destruct (is_line u' p' r); simpl; rewrite IH; reflexivity.
Qed.

Lemma is_line_inj u p u' p' r :
  is_line u p r = true -> is_line u' p' r = true -> u' = u /\ p' = p.
Proof.
  unfold is_line. intros H H'.
  apply andb_prop in H. apply andb_prop in H'.
  destruct H as [H1 H2], H' as [H1' H2'].
  apply Nat.eqb_eq in H1, H2, H1', H2'. split; congruence.
Qed.

Lemma lines_removed u p l :
  filter (is_line u p) (filter (fun r => negb (is_line u p r)) l) = [].
Proof.
  induction l as [|r l IH]; simpl; [reflexivity|].
  destruct (is_line u p r) eqn:E; simpl; [exact IH|].
  rewrite E. exact IH.
Qed.

Lemma filter_filter_length {A} (P Q : A -> bool) (l : list A) :
  length (filter P (filter Q l)) <= length (filter P l).
Proof.
  induction l as [|x l IH]; simpl; [lia|].
  destruct (Q x); simpl; destruct (P x); simpl; lia.
Qed.

Lemma existsb_false_filter {A} (f : A -> bool) (l : list A) :
  existsb f l = false -> filter f l = [].
Proof.
  induction l as [|x l IH]; simpl; [reflexivity|].
  destruct (f x); simpl; [discriminate|exact IH].
Qed.

Lemma filter_map_length {A} (P : A -> bool) (g : A -> A) (l : list A) :
  (forall x, P (g x) = P x) ->
  length (filter P (map g l)) = length (filter P l).
Proof.
  intros H. induction l as [|x l IH]; simpl; [reflexivity|].
  rewrite H. destruct (P x); simpl; rewrite IH; reflexivity.
Qed.

(** The cart requests keep [UNIQUE(user_id, product_id)]; the other
    requests do not touch [cart_items]. *)
Lemma exec_unique_cart s A (r : Request A) st :
  unique_cart st -> unique_cart (fst (exec s r st)).
Proof.
  intros Hu. destruct r; cbn [exec]; noop_requests; cbn [fst]; try exact Hu.
  - (* InsertCartItem *)
    unfold insert_cart_item.
    destruct (negb (fits_integer q)); [exact Hu|].
    destruct (negb (permitted _ _ _ _ _)); [exact Hu|].
    destruct (negb (product_exists st p)); [exact Hu|].
    destruct (existsb (is_line u p) (cart_items st)) eqn:E; [exact Hu|].
    cbn [fst]. intros u' p'. unfold count_lines, lines.
    cbn [cart_items bump_uuid set_cart_items].
    rewrite filter_app, length_app. cbn [filter].
    destruct (is_line u' p' (CartItems.mk (next_uuid st) u p q)) eqn:E'.
    + assert (u' = u /\ p' = p) as [-> ->].
      { unfold is_line in E'. cbn in E'. apply andb_prop in E'.
        destruct E' as [E1 E2]. apply Nat.eqb_eq in E1, E2. auto. }
      rewrite (existsb_false_filter _ _ E). simpl. lia.
    + simpl. rewrite Nat.add_0_r. apply Hu.
  - (* UpdateCartQuantity *)
    unfold update_cart_quantity.
    destruct (negb (fits_integer q)); [exact Hu|].
    cbn [fst]. intros u' p'. unfold count_lines, lines.
    cbn [cart_items set_cart_items].
    rewrite filter_map_length; [apply Hu|].
    intros x. destruct (_ && _); reflexivity.
  - (* DeleteCartItems *)
    unfold delete_cart_items. cbn [fst]. intros u' p'.
    unfold count_lines, lines. cbn [cart_items set_cart_items].
    eapply Nat.le_trans; [apply filter_filter_length|apply Hu].
  - (* InsertOrder *)
    unfold insert_order. break_ifs; exact Hu.
  - (* InsertOrderItems *)
    unfold insert_order_items. break_ifs; exact Hu.
Qed.

Lemma client_steps_unique_cart st st' :
  client_steps st st' -> unique_cart st -> unique_cart st'.
Proof.
  induction 1 as [st | s A r st st' _ IH]; intros Hu; [exact Hu|].
  apply exec_unique_cart. apply IH. exact Hu.
Qed.

Lemma bind_data {A B} (d : A) (k : A -> Client B) w :
  bind (throw_on_error (Data d)) k w = k d w.
Proof. reflexivity. Qed.

Lemma loadCart_no_fault u w :
  no_faults w ->
  loadCart (Some u) w
  = (Return tt,
     mkWorld (db w)
             (flat_map (join_product (db w)) (cart_of (User.id u) (db w)))
             (tl (faults w)) (log w ++ [logged (SelectCart (User.id u))])).
Proof.
  intros H. unfold loadCart. cbn [session_of option_map].
  rewrite bind_send_no_fault by exact H.
  cbn [exec]. unfold select_cart, answered. cbn [snd fst exec].
  rewrite visible_own_cart. reflexivity.
Qed.

Lemma loaded_no_faults w st its l :
  no_faults w -> no_faults (mkWorld st its (tl (faults w)) l).
Proof. apply no_faults_tl. Qed.

Lemma unique_lines_cases u p st :
  unique_cart st ->
  lines u p st = [] \/ exists row, lines u p st = [row].
Proof.
  intros H. specialize (H u p). unfold count_lines in H.
  destruct (lines u p st) as [|r [|r' l]]; simpl in H;
    [left; reflexivity|right; exists r; reflexivity|lia].
Qed.

Lemma with_quantity_on_line u p q r :
  is_line u p r = true -> with_quantity u p q r = set_quantity q r.
Proof. intros H. unfold with_quantity. rewrite H. reflexivity. Qed.

Lemma single_line_is_line u p st row :
  lines u p st = [row] -> is_line u p row = true.
Proof.
  unfold lines. intros H.
  assert (Hin : In row (filter (is_line u p) (cart_items st)))
    by (rewrite H; left; reflexivity).
  apply filter_In in Hin. apply Hin.
Qed.

(** One [addToCart] on a connection without faults. *)
Lemma addToCart_step u p q w :
  no_faults w -> (0 < q)%Z ->
  product_exists (db w) p = true -> unique_cart (db w) ->
  fits_integer (line_quantity (User.id u) p (db w) + q) = true ->
  exists w',
    addToCart (Some u) p q w = (Return tt, w')
    /\ no_faults w'
    /\ products (db w') = products (db w)
    /\ unique_cart (db w')
    /\ count_lines (User.id u) p (db w') = 1
    /\ line_quantity (User.id u) p (db w')
       = (line_quantity (User.id u) p (db w) + q)%Z
    /\ items_state w'
       = flat_map (join_product (db w')) (cart_of (User.id u) (db w')).
Proof.
  intros Hf Hq Hp Hu Hfit.
  unfold addToCart. destruct (Z.leb_spec q 0) as [|_]; [lia|].
  cbn [session_of option_map].
  rewrite bind_send_no_fault by exact Hf.
  pose proof (answered_no_faults (Some (User.id u))
                (SelectCartItem (User.id u) p) w Hf) as Hf1.
  assert (Hdb1 : db (answered (Some (User.id u))
                              (SelectCartItem (User.id u) p) w) = db w)
    by reflexivity.
  set (w1 := answered _ _ w) in *.
  cbn [exec]. rewrite select_own_line. cbn [snd]. rewrite bind_data.
  destruct (unique_lines_cases (User.id u) p (db w) Hu) as [E | [row E]];
    rewrite E; cbn [hd_error].
  - (* first add: the line is created *)
    assert (Hfq : fits_integer q = true).
    { unfold line_quantity in Hfit. rewrite E in Hfit. exact Hfit. }
    rewrite bind_send_no_fault by exact Hf1.
    pose proof (answered_no_faults (Some (User.id u))
                  (InsertCartItem (User.id u) p q) w1 Hf1) as Hf2.
    pose proof (insert_own_line (User.id u) p q (db w) Hfq Hp E) as Hins.
    assert (Hdb2 : db (answered (Some (User.id u))
                                (InsertCartItem (User.id u) p q) w1)
                   = fst (insert_cart_item (Some (User.id u)) (User.id u) p q
                                           (db w)))
      by (unfold answered; cbn [db exec]; rewrite Hdb1; reflexivity).
    cbn [exec]. rewrite Hdb1, Hins. cbn [snd].
    set (w2 := answered _ _ w1) in *.
    rewrite bind_data, (loadCart_no_fault u w2 Hf2).
    eexists. split; [reflexivity|]. cbn [db items_state].
    split; [apply loaded_no_faults; exact Hf2|].
    rewrite Hdb2, Hins. cbn [fst products].
    split; [reflexivity|].
    split.
    { pose proof (exec_unique_cart (Some (User.id u)) _
                    (InsertCartItem (User.id u) p q) (db w) Hu) as X.
      cbn [exec] in X. rewrite Hins in X. exact X. }
    unfold count_lines, line_quantity, lines in *. cbn [cart_items].
    rewrite filter_app, E. cbn [filter app]. unfold is_line.
    cbn [CartItems.user_id CartItems.product_id]. rewrite !Nat.eqb_refl.
    cbn. repeat split. lia.
  - (* later adds: the line's quantity is raised *)
    pose proof (single_line_is_line _ _ _ _ E) as Hrow.
    assert (Hlq : line_quantity (User.id u) p (db w) = CartItems.quantity row).
    { unfold line_quantity. rewrite E. simpl. lia. }
    rewrite Hlq in *.
    rewrite bind_send_no_fault by exact Hf1.
    pose proof (answered_no_faults (Some (User.id u))
                  (UpdateCartQuantity (User.id u) p
                     (CartItems.quantity row + q)) w1 Hf1) as Hf2.
    pose proof (update_own_line (User.id u) p _ (db w) Hfit) as Hupd.
    assert (Hdb2 : db (answered (Some (User.id u))
                                (UpdateCartQuantity (User.id u) p
                                   (CartItems.quantity row + q)) w1)
                   = fst (update_cart_quantity (Some (User.id u)) (User.id u) p
                            (CartItems.quantity row + q) (db w)))
      by (unfold answered; cbn [db exec]; rewrite Hdb1; reflexivity).
    cbn [exec]. rewrite Hdb1, Hupd. cbn [snd].
    set (w2 := answered _ _ w1) in *.
    rewrite bind_data, (loadCart_no_fault u w2 Hf2).
    eexists. split; [reflexivity|]. cbn [db items_state].
    split; [apply loaded_no_faults; exact Hf2|].
    rewrite Hdb2, Hupd. cbn [fst]. unfold set_cart_items at 1. cbn [products].
    split; [reflexivity|].
    split.
    { pose proof (exec_unique_cart (Some (User.id u)) _
                    (UpdateCartQuantity (User.id u) p
                       (CartItems.quantity row + q)) (db w) Hu) as X.
      cbn [exec] in X. rewrite Hupd in X. exact X. }
    unfold count_lines, line_quantity, lines in *.
    unfold set_cart_items. cbn [cart_items].
    rewrite lines_with_quantity, E. cbn [map].
    rewrite (with_quantity_on_line _ _ _ _ Hrow). cbn.
    repeat split. lia.
Qed.

Lemma sumZ_positive qs : Forall (fun q => (0 < q)%Z) qs -> (0 <= sumZ qs)%Z.
Proof. induction 1 as [|q qs Hq _ IH]; simpl; lia. Qed.

Lemma fits_integer_iff n :
  fits_integer n = true <-> (- 2 ^ 31 <= n < 2 ^ 31)%Z.
Proof.
  unfold fits_integer. rewrite andb_true_iff, Z.leb_le, Z.ltb_lt. tauto.
Qed.

Lemma addAll_spec u p qs :
  forall w,
    Forall (fun q => (0 < q)%Z) qs -> no_faults w ->
    product_exists (db w) p = true -> unique_cart (db w) ->
    (- 2 ^ 31 <= line_quantity (User.id u) p (db w))%Z ->
    (line_quantity (User.id u) p (db w) + sumZ qs < 2 ^ 31)%Z ->
    exists w',
      addAll (Some u) p qs w = (Return tt, w')
      /\ unique_cart (db w')
      /\ line_quantity (User.id u) p (db w')
         = (line_quantity (User.id u) p (db w) + sumZ qs)%Z
      /\ (count_lines (User.id u) p (db w) = 1 \/ qs <> [] ->
          count_lines (User.id u) p (db w') = 1).
Proof.
  induction qs as [|q rest IH]; intros w Hpos Hf Hp Hu Hlo Hhi.
  - exists w. simpl. split; [reflexivity|]. split; [exact Hu|].
    split; [lia|]. intros [H|H]; [exact H|congruence].
  - inversion Hpos as [|? ? Hq Hrest]; subst.
    pose proof (sumZ_positive _ Hrest) as Hsum. simpl in Hhi.
    destruct (addToCart_step u p q w Hf Hq Hp Hu) as
      (w1 & Hrun & Hf1 & Hprod & Hu1 & Hc1 & Hq1 & _).
    { apply fits_integer_iff. lia. }
    destruct (IH w1 Hrest Hf1) as (w' & Hrun' & Hu' & Hq' & Hc').
    + unfold product_exists in *. rewrite Hprod. exact Hp.
    + exact Hu1.
    + lia.
    + lia.
    + exists w'. cbn [addAll]. unfold bind at 1. rewrite Hrun.
      split; [exact Hrun'|]. split; [exact Hu'|].
      change (sumZ (q :: rest)) with (q + sumZ rest)%Z.
      split; [lia|]. intros _. apply Hc'. left. exact Hc1.
Qed.

(** C7. The unique constraint on (user_id, product_id) holds along every
    sequence of client requests. And a non-empty sequence of [addToCart]
    calls of one user for one product, with positive quantities, on a
    connection without faults, for a product of the catalogue and within
    the range of the quantity column, leaves exactly one cart line for
    that user and product, whose quantity is the quantity the line had
    before (0 if there was none) plus the sum of the quantities passed. *)
Theorem repeated_adds_make_one_line :
  (forall st st', client_steps st st' -> unique_cart st -> unique_cart st')
  /\ (forall u p qs w,
         qs <> [] -> Forall (fun q => (0 < q)%Z) qs -> no_faults w ->
         product_exists (db w) p = true -> unique_cart (db w) ->
         (- 2 ^ 31 <= line_quantity (User.id u) p (db w))%Z ->
         (line_quantity (User.id u) p (db w) + sumZ qs < 2 ^ 31)%Z ->
         exists w',
           addAll (Some u) p qs w = (Return tt, w')
           /\ unique_cart (db w')
           /\ count_lines (User.id u) p (db w') = 1
           /\ line_quantity (User.id u) p (db w')
              = (line_quantity (User.id u) p (db w) + sumZ qs)%Z
           /\ (count_lines (User.id u) p (db w) = 0 ->
               line_quantity (User.id u) p (db w') = sumZ qs)).
Proof.
  split; [apply client_steps_unique_cart|].
  intros u p qs w Hne Hpos Hf Hp Hu Hlo Hhi.
  destruct (addAll_spec u p qs w Hpos Hf Hp Hu Hlo Hhi)
    as (w' & Hrun & Hu' & Hq & Hc).
  exists w'. split; [exact Hrun|]. split; [exact Hu'|].
  split; [apply Hc; right; exact Hne|]. split; [exact Hq|].
  intros H0. rewrite Hq. unfold line_quantity.
  unfold count_lines in H0. apply length_zero_iff_nil in H0. rewrite H0.
  reflexivity.
Qed.

Lemma repeated_adds_make_one_line_witness :
  exists w',
    addAll (Some ana) 100 [1%Z; 2%Z] empty_cart_world = (Return tt, w')
    /\ count_lines 1 100 (db w') = 1
    /\ line_quantity 1 100 (db w') = 3%Z.
Proof.
  destruct (proj2 repeated_adds_make_one_line ana 100 [1%Z; 2%Z]
              empty_cart_world)
    as (w' & Hrun & _ & Hc & _ & Hq).
  - discriminate.
  - repeat constructor.
  - constructor.
  - reflexivity.
  - intros u p. unfold count_lines, lines. simpl. lia.
  - vm_compute. discriminate.
  - vm_compute. reflexivity.
  - exists w'. split; [exact Hrun|]. split; [exact Hc|].
    apply Hq. reflexivity.
Defined.

Lemma removeFromCart_no_fault u p w :
  no_faults w ->
  exists w',
    removeFromCart (Some u) p w = (Return tt, w')
    /\ cart_items (db w')
       = filter (fun r => negb (is_line (User.id u) p r)) (cart_items (db w))
    /\ count_lines (User.id u) p (db w') = 0
    /\ items_state w'
       = flat_map (join_product (db w')) (cart_of (User.id u) (db w')).
Proof.
  intros Hf. unfold removeFromCart. cbn [session_of option_map].
  rewrite bind_send_no_fault by exact Hf.
  pose proof (answered_no_faults (Some (User.id u))
                (DeleteCartItems (User.id u) (Some p)) w Hf) as Hf1.
  assert (Hdb1 : db (answered (Some (User.id u))
                              (DeleteCartItems (User.id u) (Some p)) w)
                 = fst (delete_cart_items (Some (User.id u)) (User.id u)
                                          (Some p) (db w)))
    by reflexivity.
  set (w1 := answered _ _ w) in *.
  cbn [exec]. rewrite delete_own_line. cbn [snd].
  rewrite bind_data, (loadCart_no_fault u w1 Hf1).
  eexists. split; [reflexivity|]. cbn [db items_state].
  rewrite Hdb1, delete_own_line. cbn [fst]. unfold set_cart_items at 1 2.
  cbn [cart_items]. split; [reflexivity|]. split; [|reflexivity].
  unfold count_lines, lines. cbn [cart_items]. rewrite lines_removed.
  reflexivity.
Qed.

Lemma updateQuantity_no_fault u p q w :
  (0 < q)%Z -> no_faults w -> fits_integer q = true ->
  count_lines (User.id u) p (db w) = 1 ->
  exists w',
    updateQuantity (Some u) p q w = (Return tt, w')
    /\ cart_items (db w')
       = map (with_quantity (User.id u) p q) (cart_items (db w))
    /\ count_lines (User.id u) p (db w') = 1
    /\ line_quantity (User.id u) p (db w') = q
    /\ items_state w'
       = flat_map (join_product (db w')) (cart_of (User.id u) (db w')).
Proof.
  intros Hq Hf Hfit Hc. unfold updateQuantity.
  destruct (Z.leb_spec q 0) as [|_]; [lia|].
  cbn [session_of option_map].
  rewrite bind_send_no_fault by exact Hf.
  pose proof (answered_no_faults (Some (User.id u))
                (SelectCartItem (User.id u) p) w Hf) as Hf1.
  assert (Hdb1 : db (answered (Some (User.id u))
                              (SelectCartItem (User.id u) p) w) = db w)
    by reflexivity.
  set (w1 := answered _ _ w) in *.
  cbn [exec]. rewrite select_own_line. cbn [snd]. rewrite bind_data.
  unfold count_lines in Hc.
  destruct (lines (User.id u) p (db w)) as [|row [|row' l]] eqn:E;
    try discriminate Hc.
  cbn [hd_error].
  pose proof (single_line_is_line _ _ _ _ E) as Hrow.
  rewrite bind_send_no_fault by exact Hf1.
  pose proof (answered_no_faults (Some (User.id u))
                (UpdateCartQuantity (User.id u) p q) w1 Hf1) as Hf2.
  pose proof (update_own_line (User.id u) p q (db w) Hfit) as Hupd.
  assert (Hdb2 : db (answered (Some (User.id u))
                              (UpdateCartQuantity (User.id u) p q) w1)
                 = fst (update_cart_quantity (Some (User.id u)) (User.id u) p q
                                             (db w)))
    by (unfold answered; cbn [db exec]; rewrite Hdb1; reflexivity).
  cbn [exec]. rewrite Hdb1, Hupd. cbn [snd].
  set (w2 := answered _ _ w1) in *.
  rewrite bind_data, (loadCart_no_fault u w2 Hf2).
  eexists. split; [reflexivity|]. cbn [db items_state].
  rewrite Hdb2, Hupd. cbn [fst]. unfold set_cart_items at 1 2 3.
  cbn [cart_items]. split; [reflexivity|].
  unfold count_lines, line_quantity, lines in *. cbn [cart_items].
  rewrite lines_with_quantity, E. cbn [map].
  rewrite (with_quantity_on_line _ _ _ _ Hrow). cbn.
  repeat split. lia.
Qed.

Lemma updateQuantity_not_found u p q w :
  (0 < q)%Z -> no_faults w -> count_lines (User.id u) p (db w) = 0 ->
  exists w',
    updateQuantity (Some u) p q w = (Throw NotFoundError, w')
    /\ db w' = db w /\ items_state w' = items_state w.
Proof.
  intros Hq Hf Hc. unfold updateQuantity.
  destruct (Z.leb_spec q 0) as [|_]; [lia|].
  cbn [session_of option_map].
  rewrite bind_send_no_fault by exact Hf.
  cbn [exec]. rewrite select_own_line. cbn [snd]. rewrite bind_data.
  unfold count_lines in Hc. apply length_zero_iff_nil in Hc. rewrite Hc.
  cbn [hd_error]. eexists. split; [reflexivity|]. split; reflexivity.
Qed.

(** C8. [updateQuantity] with a quantity of zero or less is
    [removeFromCart]: the same run, hence the same resulting cart; so is
    the screen's handler, and so is the minus button on a line of
    quantity one. On a connection without faults the removal leaves no line
    for the product and every other line as it was. With a quantity
    above zero that fits the column, the existing line gets that quantity
    and the other lines are unchanged. *)
Theorem updateQuantity_nonpositive_is_remove :
  (forall user p q w,
      (q <= 0)%Z ->
      updateQuantity user p q w = removeFromCart user p w
      /\ handleUpdateQuantity user p q w = removeFromCart user p w)
  /\ (forall user item w,
         (CartItem.quantity item <= 1)%Z ->
         onPressMinus user item w
         = removeFromCart user (CartItem.product_id item) w)
  /\ (forall u p w,
         no_faults w ->
         exists w',
           removeFromCart (Some u) p w = (Return tt, w')
           /\ cart_items (db w')
              = filter (fun r => negb (is_line (User.id u) p r))
                       (cart_items (db w))
           /\ count_lines (User.id u) p (db w') = 0)
  /\ (forall u p q w,
         (0 < q)%Z -> no_faults w -> fits_integer q = true ->
         count_lines (User.id u) p (db w) = 1 ->
         exists w',
           handleUpdateQuantity (Some u) p q w = (Return tt, w')
           /\ cart_items (db w')
              = map (with_quantity (User.id u) p q) (cart_items (db w))
           /\ count_lines (User.id u) p (db w') = 1
           /\ line_quantity (User.id u) p (db w') = q).
Proof.
  assert (H0 : forall user p q w,
             (q <= 0)%Z -> updateQuantity user p q w = removeFromCart user p w).
  { intros user p q w Hq. unfold updateQuantity.
    destruct (Z.leb_spec q 0); [reflexivity|lia]. }
  split; [intros; split; apply H0; assumption|].
  split.
  { intros user item w Hq. unfold onPressMinus, handleUpdateQuantity.
    apply H0. lia. }
  split.
  { intros u p w Hf.
    destruct (removeFromCart_no_fault u p w Hf) as (w' & H1 & H2 & H3 & _).
    exists w'. auto. }
  intros u p q w Hq Hf Hfit Hc.
  destruct (updateQuantity_no_fault u p q w Hq Hf Hfit Hc)
    as (w' & H1 & H2 & H3 & H4 & _).
  exists w'. auto.
Qed.

Lemma updateQuantity_nonpositive_is_remove_witness :
  updateQuantity (Some ana) 100 0 (scenario [])
  = removeFromCart (Some ana) 100 (scenario [])
  /\ exists w',
      handleUpdateQuantity (Some ana) 100 5 (scenario []) = (Return tt, w')
      /\ line_quantity 1 100 (db w') = 5%Z.
Proof.
  split.
  - apply (proj1 updateQuantity_nonpositive_is_remove (Some ana) 100 0%Z
             (scenario [])). lia.
  - destruct (proj2 (proj2 (proj2 updateQuantity_nonpositive_is_remove))
                ana 100 5%Z (scenario []))
      as (w' & H1 & _ & _ & H4).
    + lia.
    + constructor.
    + reflexivity.
    + reflexivity.
    + exists w'. split; assumption.
Defined.


(* ===================================================================== *)
(** * 11. The store behind the policies: who can reach what              *)
(* ===================================================================== *)

Lemma set_cart_items_same st : set_cart_items (cart_items st) st = st.
Proof. unfold set_cart_items. apply store_eta. Qed.

Lemma anon_cart_row st c k : permitted st None tbl_cart_items c k = false.
Proof. destruct c; reflexivity. Qed.

Lemma not_own_row st s v c :
  s <> Some v ->
  permitted st s tbl_cart_items c (mkKeys (Some v) None) = false.
Proof.
  intros H. destruct s as [u|]; [|apply anon_cart_row].
  rewrite own_row_only. apply Nat.eqb_neq. congruence.
Qed.

(** X1. A client that is not signed in changes nothing: whatever request
    it sends, the store afterwards is the store before. What the
    policies leave to such a client is reading categories and products. *)
Theorem anonymous_requests_change_nothing :
  (forall A (r : Request A) st, fst (exec None r st) = st)
  /\ (forall t,
         granted_commands t anon
         = match t with
           | tbl_categories | tbl_products => [SELECT]
           | _ => []
           end).
Proof.
  split; [|intros t; destruct t; reflexivity].
  intros A r st. destruct r; cbn [exec]; noop_requests; cbn [fst];
    try reflexivity.
  - unfold insert_cart_item. rewrite anon_cart_row.
    destruct (fits_integer q); reflexivity.
  - unfold update_cart_quantity. destruct (negb (fits_integer q));
      [reflexivity|]. cbn [fst]. rewrite map_fixed.
    + apply set_cart_items_same.
    + intros x. rewrite anon_cart_row, andb_false_r. reflexivity.
  - unfold delete_cart_items. cbn [fst]. rewrite filter_all.
    + apply set_cart_items_same.
    + intros x. rewrite anon_cart_row, andb_false_r. reflexivity.
  - unfold insert_order. rewrite anon_writes_nothing by discriminate.
    destruct (fits_decimal_10_2 total); reflexivity.
  - unfold insert_order_items.
    destruct (negb (forallb _ rows)); [reflexivity|].
    destruct rows as [|n rest].
    + cbn. unfold bump_uuid, set_order_items. cbn.
      rewrite app_nil_r, Nat.add_0_r. apply store_eta.
    + cbn [forallb]. rewrite anon_writes_nothing by discriminate.
      reflexivity.
Qed.

Lemma cart_of_map_foreign v (g : CartItems.Row -> CartItems.Row) l :
  (forall r, CartItems.user_id (g r) = CartItems.user_id r) ->
  (forall r, CartItems.user_id r = v -> g r = r) ->
  filter (fun r => CartItems.user_id r =? v) (map g l)
  = filter (fun r => CartItems.user_id r =? v) l.
Proof.
  intros Hid Hfix. induction l as [|r l IH]; simpl; [reflexivity|].
  rewrite Hid. destruct (Nat.eqb_spec (CartItems.user_id r) v) as [E|E].
  - rewrite (Hfix r E), IH. reflexivity.
  - exact IH.
Qed.

Lemma cart_of_filter_foreign v (keep : CartItems.Row -> bool) l :
  (forall r, CartItems.user_id r = v -> keep r = true) ->
  filter (fun r => CartItems.user_id r =? v) (filter keep l)
  = filter (fun r => CartItems.user_id r =? v) l.
Proof.
  intros Hkeep. induction l as [|r l IH]; simpl; [reflexivity|].
  destruct (Nat.eqb_spec (CartItems.user_id r) v) as [E|E].
  - rewrite (Hkeep r E). simpl.
    destruct (Nat.eqb_spec (CartItems.user_id r) v); [|contradiction].
    rewrite IH. reflexivity.
  - destruct (keep r); simpl; [|exact IH].
    destruct (Nat.eqb_spec (CartItems.user_id r) v); [contradiction|exact IH].
Qed.

(** X2. Nobody writes to another user's cart. Whatever request a client
    sends, signed in as someone else or not signed in, the cart lines of
    user [v] are afterwards what they were, even when the request names
    [v]'s rows. *)
Theorem foreign_cart_is_out_of_reach s v A (r : Request A) st :
  s <> Some v ->
  cart_of v (fst (exec s r st)) = cart_of v st.
Proof.
  intros Hs. unfold cart_of.
  destruct r; cbn [exec]; noop_requests; cbn [fst]; try reflexivity.
  - (* InsertCartItem *)
    unfold insert_cart_item.
    destruct (negb (fits_integer q)); [reflexivity|].
    destruct (permitted st s tbl_cart_items INSERT
                (cart_item_keys (CartItems.mk (next_uuid st) u p q))) eqn:Hp;
      [|reflexivity].
    cbn [negb].
    destruct (negb (product_exists st p)); [reflexivity|].
    destruct (existsb (is_line u p) (cart_items st)); [reflexivity|].
    cbn [fst bump_uuid set_cart_items cart_items]. rewrite filter_app.
    cbn [filter CartItems.user_id].
    destruct (Nat.eqb_spec u v) as [E|E]; [|apply app_nil_r].
    subst u. unfold cart_item_keys in Hp. cbn [CartItems.user_id] in Hp.
    rewrite (not_own_row st s v INSERT Hs) in Hp. discriminate.
  - (* UpdateCartQuantity *)
    unfold update_cart_quantity.
    destruct (negb (fits_integer q)); [reflexivity|].
    cbn [fst set_cart_items cart_items]. apply cart_of_map_foreign.
    + intros r. destruct (_ && _); reflexivity.
    + intros r E. unfold cart_item_keys. rewrite E.
      rewrite (not_own_row st s v UPDATE Hs), andb_false_r. reflexivity.
  - (* DeleteCartItems *)
    unfold delete_cart_items. cbn [fst set_cart_items cart_items].
    apply cart_of_filter_foreign. intros r E.
    unfold cart_item_keys. rewrite E.
    rewrite (not_own_row st s v DELETE Hs), andb_false_r. reflexivity.
  - (* InsertOrder *)
    unfold insert_order. break_ifs; reflexivity.
  - (* InsertOrderItems *)
    unfold insert_order_items. break_ifs; reflexivity.
Qed.

Lemma foreign_cart_is_out_of_reach_witness :
  cart_of 2 (fst (exec (Some 1) (DeleteCartItems 2 None) scenario_store))
  = cart_of 2 scenario_store.
Proof.
  apply (foreign_cart_is_out_of_reach (Some 1) 2 _ (DeleteCartItems 2 None)
           scenario_store).
  discriminate.
Defined.

Lemma not_own_order st s v :
  s <> Some v ->
  permitted st s tbl_orders SELECT (mkKeys (Some v) None) = false.
Proof.
  intros H. destruct s as [u|]; [|reflexivity].
  rewrite own_order_select. apply Nat.eqb_neq. congruence.
Qed.

(** X3. Nobody reads another user's cart or orders. A request for the
    cart, for one cart line or for the orders of user [v], sent by a
    client that is not signed in as [v], comes back empty, whatever the
    store holds for [v]; and the orders a signed-in user gets back are all
    their own. *)
Theorem foreign_rows_are_invisible s v st :
  s <> Some v ->
  (forall p,
      exec s (SelectCart v) st = (st, Data [])
      /\ exec s (SelectCartItem v p) st = (st, Data None)
      /\ exec s (SelectOrders v) st = (st, Data []))
  /\ (forall u w rows,
         exec (Some u) (SelectOrders w) st = (st, Data rows) ->
         Forall (fun o => Orders.user_id o = u /\ In o (orders st)) rows).
Proof.
  intros Hs.
  assert (Hvis : visible_cart st s v = []).
  { unfold visible_cart. apply filter_none. intros r.
    destruct (Nat.eqb_spec (CartItems.user_id r) v) as [E|E];
      [|reflexivity].
    unfold cart_item_keys. rewrite E, (not_own_row st s v SELECT Hs).
    reflexivity. }
  split.
  - intros p. cbn [exec]. unfold select_cart, select_cart_item, select_orders.
    rewrite Hvis. cbn [flat_map find].
    split; [reflexivity|]. split; [reflexivity|]. f_equal. f_equal.
    apply filter_none. intros r.
    destruct (Nat.eqb_spec (Orders.user_id r) v) as [E|E]; [|reflexivity].
    unfold order_keys. rewrite E, (not_own_order st s v Hs). reflexivity.
  - intros u w rows H. cbn [exec] in H. unfold select_orders in H.
    injection H as H. subst rows. apply Forall_forall. intros o Ho.
    apply filter_In in Ho. destruct Ho as [Hin Hb].
    apply andb_prop in Hb. destruct Hb as [_ Hb].
    unfold order_keys in Hb. rewrite own_order_select in Hb.
    apply Nat.eqb_eq in Hb. auto.
Qed.

Lemma foreign_rows_are_invisible_witness :
  exec (Some 2) (SelectCart 1) scenario_store = (scenario_store, Data []).
Proof.
  destruct (foreign_rows_are_invisible (Some 2) 1 scenario_store) as [H _].
  - discriminate.
  - apply (H 0).
Defined.

Lemma order_lines_permitted st s oid :
  permitted st s tbl_order_items INSERT (mkKeys None (Some oid)) = true ->
  exists u, s = Some u /\ owns_order st u oid = true.
Proof.
  destruct s as [u|].
  - rewrite own_order_lines_insert. intros H. exists u. auto.
  - rewrite anon_writes_nothing by discriminate. discriminate.
Qed.

Lemma assign_ids_Forall (P : uuid -> Prop) base rows :
  Forall (fun n => P (OrderItems.new_order_id n)) rows ->
  Forall (fun l => P (OrderItems.order_id l)) (assign_ids base rows).
Proof.
  intros H. revert base.
  induction H as [|n rows Hn _ IH]; intros base; simpl; constructor;
    [exact Hn|apply IH].
Qed.

(** X4. Orders and order lines are created for oneself only. Whatever
    request a client sends, the orders and order lines there were stay in
    place, every order it adds is owned by the user the client is signed
    in as, and the order lines it adds all belong to orders of that
    user. *)
Theorem new_orders_belong_to_the_sender s A (r : Request A) st :
  exists new_orders new_lines,
    orders (fst (exec s r st)) = orders st ++ new_orders
    /\ order_items (fst (exec s r st)) = order_items st ++ new_lines
    /\ Forall (fun o => s = Some (Orders.user_id o)) new_orders
    /\ Forall (fun l => exists u, s = Some u
                                  /\ owns_order st u (OrderItems.order_id l)
                                     = true)
              new_lines.
Proof.
  assert (Hnone : forall st', orders st' = orders st ->
                              order_items st' = order_items st ->
            exists new_orders new_lines,
              orders st' = orders st ++ new_orders
              /\ order_items st' = order_items st ++ new_lines
              /\ Forall (fun o => s = Some (Orders.user_id o)) new_orders
              /\ Forall (fun l => exists u, s = Some u
                                   /\ owns_order st u (OrderItems.order_id l)
                                      = true) new_lines).
  { intros st' Ho Hl. exists [], []. rewrite !app_nil_r.
    repeat split; auto. }
  destruct r; cbn [exec]; noop_requests; cbn [fst];
    try (apply Hnone; reflexivity).
  - unfold insert_cart_item. break_ifs; apply Hnone; reflexivity.
  - unfold update_cart_quantity. break_ifs; apply Hnone; reflexivity.
  - (* InsertOrder *)
    destruct (insert_order s u total status st) as [st' [row|e]] eqn:E.
    + apply insert_order_data in E. destruct E as (Hs & _ & Hrow & Hst).
      subst st'. cbn [fst orders order_items].
      exists [row], []. rewrite app_nil_r. repeat split; auto.
      constructor; [|constructor]. rewrite Hrow. exact Hs.
    + apply insert_order_failure in E. subst st'. apply Hnone; reflexivity.
  - (* InsertOrderItems *)
    unfold insert_order_items.
    destruct (negb (forallb _ rows)); [apply Hnone; reflexivity|].
    destruct (forallb (fun n => permitted st s tbl_order_items INSERT
                                  (mkKeys None (Some (OrderItems.new_order_id n))))
                      rows) eqn:Hrls; cbn [negb];
      [|apply Hnone; reflexivity].
    destruct (negb (forallb _ rows)); [apply Hnone; reflexivity|].
    cbn [fst bump_uuid set_order_items orders order_items].
    exists [], (assign_ids (next_uuid st) rows). rewrite app_nil_r.
    repeat split; auto.
    apply (assign_ids_Forall
             (fun oid => exists u, s = Some u /\ owns_order st u oid = true)).
    apply Forall_forall. intros n Hn. rewrite forallb_forall in Hrls.
    apply order_lines_permitted. apply Hrls. exact Hn.
Qed.

Lemma exec_products s A (r : Request A) st :
  products (fst (exec s r st)) = products st.
Proof.
  destruct r; cbn [exec]; noop_requests; cbn [fst]; try reflexivity.
  - unfold insert_cart_item. break_ifs; reflexivity.
  - unfold update_cart_quantity. break_ifs; reflexivity.
  - unfold insert_order. break_ifs; reflexivity.
  - unfold insert_order_items. break_ifs; reflexivity.
Qed.

Lemma product_exists_same st st' p :
  products st' = products st -> product_exists st' p = product_exists st p.
Proof. unfold product_exists. intros ->. reflexivity. Qed.

Lemma order_exists_grows st st' more oid :
  orders st' = orders st ++ more ->
  order_exists st oid = true -> order_exists st' oid = true.
Proof.
  unfold order_exists. intros -> H. rewrite existsb_app, H. reflexivity.
Qed.

Lemma refs_ok_intro st st' :
  products st' = products st ->
  (exists more, orders st' = orders st ++ more) ->
  Forall (fun c => product_exists st (CartItems.product_id c) = true)
         (cart_items st') ->
  Forall (fun l => order_exists st (OrderItems.order_id l) = true
                   /\ product_exists st (OrderItems.product_id l) = true)
         (order_items st') ->
  refs_ok st'.
Proof.
  intros Hp [more Ho] Hc Hl. split.
  - eapply Forall_impl; [|exact Hc]. intros c H. cbv beta in *.
    rewrite (product_exists_same st st' _ Hp). exact H.
  - eapply Forall_impl; [|exact Hl]. intros l [H1 H2]. split.
    + eapply order_exists_grows; eassumption.
    + rewrite (product_exists_same st st' _ Hp). exact H2.
Qed.

Lemma Forall_map_keep {A} (P : A -> Prop) (g : A -> A) (l : list A) :
  (forall x, P x -> P (g x)) -> Forall P l -> Forall P (map g l).
Proof.
  intros Hg H. induction H as [|x l Hx _ IH]; simpl; constructor; auto.
Qed.

Lemma assign_ids_refs (P : uuid -> uuid -> Prop) base rows :
  Forall (fun n => P (OrderItems.new_order_id n) (OrderItems.new_product_id n))
         rows ->
  Forall (fun l => P (OrderItems.order_id l) (OrderItems.product_id l))
         (assign_ids base rows).
Proof.
  intros H. revert base.
  induction H as [|n rows Hn _ IH]; intros base; simpl; constructor;
    [exact Hn|apply IH].
Qed.

Lemma exec_refs_ok s A (r : Request A) st :
  refs_ok st -> refs_ok (fst (exec s r st)).
Proof.
  intros [Hc Hl].
  apply (refs_ok_intro st).
  - apply exec_products.
  - apply exec_orders_grow.
  - destruct r; cbn [exec]; noop_requests; cbn [fst]; try exact Hc.
    + unfold insert_cart_item.
      destruct (negb (fits_integer q)); [exact Hc|].
      destruct (negb (permitted _ _ _ _ _)); [exact Hc|].
      destruct (product_exists st p) eqn:Hp; cbn [negb]; [|exact Hc].
      destruct (existsb _ _); [exact Hc|].
      cbn [fst bump_uuid set_cart_items cart_items].
      apply Forall_app. split; [exact Hc|].
      constructor; [exact Hp|constructor].
    + unfold update_cart_quantity.
      destruct (negb (fits_integer q)); [exact Hc|].
      cbn [fst set_cart_items cart_items].
      apply Forall_map_keep; [|exact Hc].
      intros x Hx. destruct (_ && _); exact Hx.
    + unfold delete_cart_items. cbn [fst set_cart_items cart_items].
      apply Forall_filter_keep. exact Hc.
    + unfold insert_order. break_ifs; exact Hc.
    + unfold insert_order_items. break_ifs; exact Hc.
  - destruct r; cbn [exec]; noop_requests; cbn [fst]; try exact Hl.
    + unfold insert_cart_item. break_ifs; exact Hl.
    + unfold update_cart_quantity. break_ifs; exact Hl.
    + unfold insert_order. break_ifs; exact Hl.
    + unfold insert_order_items.
      destruct (negb (forallb _ rows)); [exact Hl|].
      destruct (negb (forallb _ rows)); [exact Hl|].
      destruct (forallb (fun n => order_exists st (OrderItems.new_order_id n)
                                  && product_exists st
                                       (OrderItems.new_product_id n)) rows)
        eqn:Hfk; cbn [negb]; [|exact Hl].
      cbn [fst bump_uuid set_order_items order_items].
      apply Forall_app. split; [exact Hl|].
      apply (assign_ids_refs
               (fun oid pid => order_exists st oid = true
                               /\ product_exists st pid = true)).
      apply Forall_forall. intros n Hn. rewrite forallb_forall in Hfk.
      apply andb_prop. apply Hfk. exact Hn.
Qed.

Lemma catalog_set_price_exists pid v st p :
  product_exists (catalog_set_price pid v st) p = product_exists st p.
Proof.
  unfold product_exists, catalog_set_price, set_products. cbn [products].
  induction (products st) as [|r l IH]; simpl; [reflexivity|].
  rewrite IH. destruct (Products.id r =? pid); reflexivity.
Qed.

(** X5. The references between the tables hold for good. From a store in
    which every cart line refers to a product of the catalogue and every
    order line to a stored order and a product of the catalogue, no
    sequence of client requests and catalogue price changes leads to a
    store in which one of them dangles. *)
Theorem references_never_dangle st st' :
  steps st st' -> refs_ok st -> refs_ok st'.
Proof.
  induction 1 as [st | st st' st'' _ IH Hstep]; intros H; [exact H|].
  specialize (IH H). destruct Hstep as [s A r st' | pid v st'].
  - apply exec_refs_ok. exact IH.
  - destruct IH as [Hc Hl]. split.
    + eapply Forall_impl; [|exact Hc]. intros c Hx. cbv beta in *.
      rewrite catalog_set_price_exists. exact Hx.
    + eapply Forall_impl; [|exact Hl]. intros l [H1 H2]. split.
      * exact H1.
      * rewrite catalog_set_price_exists. exact H2.
Qed.

Lemma references_never_dangle_witness :
  refs_ok (fst (exec (Some 1) (InsertCartItem 1 101 4) scenario_store)).
Proof.
  apply (references_never_dangle scenario_store).
  - eapply steps_next; [apply steps_refl|].
    apply (step_request (Some 1) _ (InsertCartItem 1 101 4) scenario_store).
  - split; repeat constructor.
Defined.

Lemma product_exists_find st p :
  product_exists st p = true -> exists row, find_product st p = Some row.
Proof.
  unfold product_exists, find_product.
  induction (products st) as [|r l IH]; simpl; [discriminate|].
  destruct (Products.id r =? p); simpl; [eexists; reflexivity|exact IH].
Qed.

Lemma join_every_line st l :
  Forall (fun c => product_exists st (CartItems.product_id c) = true) l ->
  map (fun i => (CartItem.id i, CartItem.product_id i, CartItem.quantity i))
      (flat_map (join_product st) l)
  = map (fun r => (CartItems.id r, CartItems.product_id r,
                   CartItems.quantity r)) l
  /\ Forall (fun i => find_product st (CartItem.product_id i)
                      = Some (CartItem.product i))
            (flat_map (join_product st) l).
Proof.
  induction 1 as [|c l Hc _ [IH1 IH2]]; simpl; [split; [reflexivity|constructor]|].
  unfold join_product at 1 3.
  destruct (product_exists_find _ _ Hc) as [row Hrow]. rewrite Hrow.
  simpl. split; [rewrite IH1; reflexivity|].
  constructor; [exact Hrow|exact IH2].
Qed.

(** X6. With the references in place, loading one's cart loses no line:
    the request for the cart of the signed-in user comes back with one
    entry per stored cart line of that user, in order, with the line's id,
    product and quantity, each joined with the catalogue's row for its
    product. *)
Theorem loaded_cart_has_every_line u st :
  refs_ok st ->
  exists its,
    exec (Some u) (SelectCart u) st = (st, Data its)
    /\ map (fun i => (CartItem.id i, CartItem.product_id i,
                      CartItem.quantity i)) its
       = map (fun r => (CartItems.id r, CartItems.product_id r,
                        CartItems.quantity r)) (cart_of u st)
    /\ Forall (fun i => find_product st (CartItem.product_id i)
                        = Some (CartItem.product i)) its.
Proof.
  intros [Hc _]. cbn [exec]. unfold select_cart. rewrite visible_own_cart.
  eexists. split; [reflexivity|].
  apply join_every_line. unfold cart_of. apply Forall_filter_keep. exact Hc.
Qed.

Lemma loaded_cart_has_every_line_witness :
  exists its,
    exec (Some 1) (SelectCart 1) scenario_store = (scenario_store, Data its)
    /\ length its = 2.
Proof.
  destruct (loaded_cart_has_every_line 1 scenario_store) as (its & H1 & H2 & _).
  - split; repeat constructor.
  - exists its. split; [exact H1|].
    apply (f_equal (@length _)) in H2. rewrite !length_map in H2. exact H2.
Defined.


(* ===================================================================== *)
(** * 12. Checkout: what a run sends, and when it is refused              *)
(* ===================================================================== *)

Lemma clearCart_log u w x w' :
  clearCart (Some u) w = (x, w') ->
  log w' = log w ++ [logged (DeleteCartItems (User.id u) None)].
Proof.
  rewrite clearCart_run.
  destruct (send _ _ w) as [[[d|e]|e] w1] eqn:E;
    intros H; injection H as _ Hw; subst w';
    apply send_frame in E; destruct E as (_ & _ & E); exact E.
Qed.

(** The shape of every run of the checkout handler. *)
Lemma checkout_run_shape user ctx choice w :
  exists out w' added,
    handleCheckout user ctx choice w = (Return out, w')
    /\ log w' = log w ++ added
    /\ ((added = [] /\ w' = w
         /\ (items ctx = [] /\ out = AlertCarrinhoVazio
             \/ items ctx <> [] /\ choice = Cancelar /\ out = Dismissed
             \/ items ctx <> [] /\ choice = Confirmar /\ user = None
                /\ out = AlertErro))
        \/ exists u order k,
             user = Some u /\ choice = Confirmar /\ items ctx <> []
             /\ 1 <= k <= 3
             /\ added = firstn k (checkout_requests u ctx order)
             /\ (out = AlertSucesso \/ out = AlertErro)
             /\ (k < 3 -> out = AlertErro)).
Proof.
  unfold handleCheckout.
  destruct (length (items ctx) =? 0) eqn:Hlen.
  { exists AlertCarrinhoVazio, w, []. rewrite app_nil_r.
    split; [reflexivity|]. split; [reflexivity|]. left.
    split; [reflexivity|]. split; [reflexivity|]. left.
    split; [|reflexivity]. apply length_zero_iff_nil.
    apply Nat.eqb_eq. exact Hlen. }
  assert (Hne : items ctx <> [])
    by (intros E; rewrite E in Hlen; discriminate).
  destruct choice.
  { exists Dismissed, w, []. rewrite app_nil_r.
    split; [reflexivity|]. split; [reflexivity|]. left.
    split; [reflexivity|]. split; [reflexivity|]. right. left. auto. }
  unfold try_catch. destruct user as [u|].
  2:{ rewrite placeOrder_no_user. exists AlertErro, w, [].
      rewrite app_nil_r. split; [reflexivity|]. split; [reflexivity|]. left.
      split; [reflexivity|]. split; [reflexivity|]. right. right. auto. }
  rewrite placeOrder_run.
  destruct (send _ _ w) as [[[order|e]|e] w1] eqn:E1.
  - pose proof (send_frame _ _ _ _ _ _ E1) as (_ & _ & L1).
    destruct (send _ _ w1) as [[[d|e]|e] w2] eqn:E2.
    + pose proof (send_frame _ _ _ _ _ _ E2) as (_ & _ & L2).
      destruct (clearCart (Some u) w2) as [[d'|e] w3] eqn:E3;
        pose proof (clearCart_log _ _ _ _ E3) as L3.
      * exists AlertSucesso, w3, (checkout_requests u ctx order).
        split; [reflexivity|].
        split; [rewrite L3, L2, L1, <- !app_assoc; reflexivity|].
        right. exists u, order, 3. repeat split; auto; lia.
      * exists AlertErro, w3, (checkout_requests u ctx order).
        split; [reflexivity|].
        split; [rewrite L3, L2, L1, <- !app_assoc; reflexivity|].
        right. exists u, order, 3. repeat split; auto; lia.
    + pose proof (send_frame _ _ _ _ _ _ E2) as (_ & _ & L2).
      exists AlertErro, w2, (firstn 2 (checkout_requests u ctx order)).
      split; [reflexivity|].
      split; [rewrite L2, L1, <- !app_assoc; reflexivity|].
      right. exists u, order, 2. repeat split; auto; lia.
    + exfalso. exact (send_never_throws _ _ _ _ _ _ E2).
  - pose proof (send_frame _ _ _ _ _ _ E1) as (_ & _ & L1).
    exists AlertErro, w1,
      (firstn 1 (checkout_requests u ctx (Orders.mk 0 0 0 pending))).
    split; [reflexivity|]. split; [rewrite L1; reflexivity|].
    right. exists u, (Orders.mk 0 0 0 pending), 1. repeat split; auto; lia.
  - exfalso. exact (send_never_throws _ _ _ _ _ _ E1).
Qed.

(** X7. The checkout handler never throws, and what it sends is a prefix
    of three requests, in this order and each once: the insert of one
    pending order with the cart's total; then, only if that came back
    with a row, the insert of the lines for the very order it came back
    with; then, only if that succeeded, the deletion of the user's cart
    lines. It sends nothing at all for an empty cart (the 'Carrinho
    Vazio' alert), a cancelled dialog or a missing user (the error
    alert), and then leaves the world as it was; a run that stops before
    the third request ends with the error alert. *)
Theorem checkout_sends_a_prefix_of_three_requests user ctx choice w :
  exists out w' added,
    handleCheckout user ctx choice w = (Return out, w')
    /\ log w' = log w ++ added
    /\ ((added = [] /\ w' = w
         /\ (items ctx = [] /\ out = AlertCarrinhoVazio
             \/ items ctx <> [] /\ choice = Cancelar /\ out = Dismissed
             \/ items ctx <> [] /\ choice = Confirmar /\ user = None
                /\ out = AlertErro))
        \/ exists u,
             user = Some u /\ choice = Confirmar /\ items ctx <> []
             /\ ((exists e,
                     send (Some (User.id u))
                          (InsertOrder (User.id u) (totalPrice ctx) pending) w
                     = (Return (Failure e), w')
                     /\ added
                        = [logged (InsertOrder (User.id u) (totalPrice ctx)
                                               pending)]
                     /\ out = AlertErro)
                 \/ exists order w1,
                      send (Some (User.id u))
                           (InsertOrder (User.id u) (totalPrice ctx) pending) w
                      = (Return (Data order), w1)
                      /\ ((exists e,
                              send (Some (User.id u))
                                   (InsertOrderItems
                                      (orderItems order (items ctx))) w1
                              = (Return (Failure e), w')
                              /\ added
                                 = firstn 2 (checkout_requests u ctx order)
                              /\ out = AlertErro)
                          \/ exists w2,
                               send (Some (User.id u))
                                    (InsertOrderItems
                                       (orderItems order (items ctx))) w1
                               = (Return (Data tt), w2)
                               /\ added = checkout_requests u ctx order
                               /\ (out = AlertSucesso \/ out = AlertErro)))).
Proof.
  unfold handleCheckout.
  destruct (length (items ctx) =? 0) eqn:Hlen.
  { exists AlertCarrinhoVazio, w, []. rewrite app_nil_r.
    split; [reflexivity|]. split; [reflexivity|]. left.
    split; [reflexivity|]. split; [reflexivity|]. left.
    split; [|reflexivity]. apply length_zero_iff_nil.
    apply Nat.eqb_eq. exact Hlen. }
  assert (Hne : items ctx <> [])
    by (intros E; rewrite E in Hlen; discriminate).
  destruct choice.
  { exists Dismissed, w, []. rewrite app_nil_r.
    split; [reflexivity|]. split; [reflexivity|]. left.
    split; [reflexivity|]. split; [reflexivity|]. right. left. auto. }
  unfold try_catch. destruct user as [u|].
  2:{ rewrite placeOrder_no_user. exists AlertErro, w, [].
      rewrite app_nil_r. split; [reflexivity|]. split; [reflexivity|]. left.
      split; [reflexivity|]. split; [reflexivity|]. right. right. auto. }
  rewrite placeOrder_run.
  destruct (send _ _ w) as [[[order|e]|e] w1] eqn:E1.
  - pose proof (send_frame _ _ _ _ _ _ E1) as (_ & _ & L1).
    destruct (send _ _ w1) as [[[[]|e]|e] w2] eqn:E2.
    + pose proof (send_frame _ _ _ _ _ _ E2) as (_ & _ & L2).
      destruct (clearCart (Some u) w2) as [[d'|e] w3] eqn:E3;
        pose proof (clearCart_log _ _ _ _ E3) as L3.
      * exists AlertSucesso, w3, (checkout_requests u ctx order).
        split; [reflexivity|].
        split; [rewrite L3, L2, L1, <- !app_assoc; reflexivity|].
        right. exists u. repeat (split; [auto|]).
        right. exists order, w1. split; [exact E1|].
        right. exists w2. auto.
      * exists AlertErro, w3, (checkout_requests u ctx order).
        split; [reflexivity|].
        split; [rewrite L3, L2, L1, <- !app_assoc; reflexivity|].
        right. exists u. repeat (split; [auto|]).
        right. exists order, w1. split; [exact E1|].
        right. exists w2. auto.
    + pose proof (send_frame _ _ _ _ _ _ E2) as (_ & _ & L2).
      exists AlertErro, w2, (firstn 2 (checkout_requests u ctx order)).
      split; [reflexivity|].
      split; [rewrite L2, L1, <- !app_assoc; reflexivity|].
      right. exists u. repeat (split; [auto|]).
      right. exists order, w1. split; [exact E1|].
      left. exists e. auto.
    + exfalso. exact (send_never_throws _ _ _ _ _ _ E2).
  - pose proof (send_frame _ _ _ _ _ _ E1) as (_ & _ & L1).
    exists AlertErro, w1,
      [logged (InsertOrder (User.id u) (totalPrice ctx) pending)].
    split; [reflexivity|]. split; [exact L1|].
    right. exists u. repeat (split; [auto|]).
    left. exists e. auto.
  - exfalso. exact (send_never_throws _ _ _ _ _ _ E1).
Qed.

Lemma insert_order_refused s u total status st :
  fits_decimal_10_2 total = false ->
  insert_order s u total status st = (st, Failure numeric_value_out_of_range).
Proof. intros H. unfold insert_order. rewrite H. reflexivity. Qed.

(** X8. A cart whose total does not fit the [decimal(10,2)] column cannot
    be checked out: whatever the connection does, the confirmed run sends
    the order insert and nothing else, ends with the error alert, and
    leaves the store and the in-memory cart as they were. *)
Theorem oversized_total_is_refused u ctx w :
  items ctx <> [] ->
  fits_decimal_10_2 (totalPrice ctx) = false ->
  exists w',
    handleCheckout (Some u) ctx Confirmar w = (Return AlertErro, w')
    /\ db w' = db w
    /\ items_state w' = items_state w
    /\ log w' = log w
                ++ [logged (InsertOrder (User.id u) (totalPrice ctx) pending)].
Proof.
  intros Hne Hbig.
  assert (H1 : exists e w1,
             send (Some (User.id u))
                  (InsertOrder (User.id u) (totalPrice ctx) pending) w
             = (Return (Failure e), w1)).
  { rewrite send_eq. cbn [exec]. rewrite (insert_order_refused _ _ _ _ _ Hbig).
    destruct (hd false (faults w)); eexists; eexists; reflexivity. }
  destruct H1 as (e & w1 & H1). exists w1.
  split.
  { unfold handleCheckout, try_catch. rewrite (nonempty_length _ Hne).
    rewrite placeOrder_run, H1. reflexivity. }
  split; [exact (send_insert_order_failure _ _ _ _ _ _ _ H1)|].
  destruct (send_frame _ _ _ _ _ _ H1) as (Hi & _ & Hl). auto.
Qed.

Lemma oversized_total_is_refused_witness :
  exists w',
    handleCheckout (Some ana)
      (mkCart [CartItem.mk 10 100 10000000 productA] 10000000 10000000000)
      Confirmar (scenario [])
    = (Return AlertErro, w')
    /\ db w' = scenario_store.
Proof.
  destruct (oversized_total_is_refused ana
              (mkCart [CartItem.mk 10 100 10000000 productA]
                      10000000 10000000000)
              (scenario [])) as (w' & H1 & H2 & _).
  - simpl. discriminate.
  - reflexivity.
  - exists w'. split; assumption.
Defined.

Lemma insert_order_items_missing_product s order its st i :
  In i its ->
  product_exists st (CartItem.product_id i) = false ->
  exists e, insert_order_items s (orderItems order its) st = (st, Failure e).
Proof.
  intros Hin Hp. unfold insert_order_items.
  destruct (negb (forallb _ (orderItems order its)));
    [eexists; reflexivity|].
  destruct (negb (forallb _ (orderItems order its)));
    [eexists; reflexivity|].
  destruct (forallb (fun n => order_exists st (OrderItems.new_order_id n)
                              && product_exists st
                                   (OrderItems.new_product_id n))
                    (orderItems order its)) eqn:Hfk; cbn [negb];
    [|eexists; reflexivity].
  exfalso. rewrite forallb_forall in Hfk.
  specialize (Hfk (OrderItems.mkInsert (Orders.id order)
                     (CartItem.product_id i) (CartItem.quantity i)
                     (Products.price (CartItem.product i)))).
  cbn [OrderItems.new_order_id OrderItems.new_product_id] in Hfk.
  rewrite Hp, andb_false_r in Hfk.
  assert (false = true); [|discriminate].
  apply Hfk. unfold orderItems. apply in_map_iff. exists i. auto.
Qed.

(** X9. A cart line whose product has left the catalogue strands an
    order, without any injected fault. When the in-memory cart holds a
    line for a product that the store no longer has, the total fits, and
    the order insert gets through, the confirmed run ends with the error
    alert after the order has been stored: the order stays, it has no
    line, and the cart is not cleared. *)
Theorem vanished_product_strands_an_order u ctx w i :
  In i (items ctx) ->
  product_exists (db w) (CartItem.product_id i) = false ->
  fits_decimal_10_2 (totalPrice ctx) = true ->
  hd false (faults w) = false ->
  exists w',
    handleCheckout (Some u) ctx Confirmar w = (Return AlertErro, w')
    /\ orders (db w')
       = orders (db w)
         ++ [Orders.mk (next_uuid (db w)) (User.id u) (totalPrice ctx) pending]
    /\ order_items (db w') = order_items (db w)
    /\ cart_items (db w') = cart_items (db w)
    /\ items_state w' = items_state w.
Proof.
  intros Hin Hp Hfit Hnf.
  assert (Hne : items ctx <> []) by (intros E; rewrite E in Hin; exact Hin).
  set (order := Orders.mk (next_uuid (db w)) (User.id u) (totalPrice ctx)
                          pending).
  pose proof (send_eq (Some (User.id u)) _
                (InsertOrder (User.id u) (totalPrice ctx) pending) w) as H1.
  rewrite Hnf in H1. cbn [exec] in H1.
  rewrite (insert_order_accepts _ _ _ _ Hfit) in H1. cbn [fst snd] in H1.
  fold order in H1.
  match type of H1 with _ = (_, ?x) => set (w1 := x) in * end.
  assert (H2 : exists e w2,
             send (Some (User.id u))
                  (InsertOrderItems (orderItems order (items ctx))) w1
             = (Return (Failure e), w2)).
  { rewrite send_eq. cbn [exec].
    destruct (insert_order_items_missing_product (Some (User.id u)) order
                (items ctx) (db w1) i Hin) as [e He].
    { rewrite <- Hp. apply product_exists_same. reflexivity. }
    rewrite He. cbn [fst snd].
    destruct (hd false (faults w1)); eexists; eexists; reflexivity. }
  destruct H2 as (e & w2 & H2). exists w2.
  destruct (order_line_failure_run u ctx w order w1 e w2 Hne H1 H2)
    as (Hrun & _ & Hdb & Hi & _).
  split; [exact Hrun|]. rewrite Hdb. cbn. auto.
Qed.

Lemma vanished_product_strands_an_order_witness :
  exists w',
    handleCheckout (Some ana)
      (mkCart [CartItem.mk 13 102 1 (Products.mk 102 "C" 300 1)] 1 300)
      Confirmar (scenario [])
    = (Return AlertErro, w')
    /\ orders (db w') = [] ++ [Orders.mk 20 1 300 pending]
    /\ order_items (db w') = [].
Proof.
  destruct (vanished_product_strands_an_order ana
              (mkCart [CartItem.mk 13 102 1 (Products.mk 102 "C" 300 1)] 1 300)
              (scenario [])
              (CartItem.mk 13 102 1 (Products.mk 102 "C" 300 1)))
    as (w' & H1 & H2 & H3 & _).
  - left. reflexivity.
  - reflexivity.
  - reflexivity.
  - reflexivity.
  - exists w'. auto.
Defined.

Lemma success_faults user ctx choice w w' :
  handleCheckout user ctx choice w = (Return AlertSucesso, w') ->
  faults w' = tl (tl (tl (faults w))).
Proof.
  intros H. apply success_inv in H.
  destruct H as (u & order & w1 & w2 & w3 & _ & _ & _ & H1 & H2 & H3 & Hw).
  apply send_frame in H1, H2, H3.
  destruct H1 as (_ & F1 & _), H2 as (_ & F2 & _), H3 as (_ & F3 & _).
  subst w'. cbn [faults]. rewrite F3, F2, F1. reflexivity.
Qed.

Lemma no_faults_after_tl w w' :
  no_faults w -> faults w' = tl (tl (tl (faults w))) -> no_faults w'.
Proof.
  unfold no_faults. intros H ->.
  assert (Htl : forall l : list bool,
             Forall (fun b => b = false) l ->
             Forall (fun b => b = false) (tl l)).
  { intros l Hl. destruct Hl; simpl; [constructor|assumption]. }
  auto.
Qed.

Lemma acceptable_same st st' ctx :
  products st' = products st -> acceptable st' ctx = acceptable st ctx.
Proof.
  intros Hp. unfold acceptable. f_equal.
  induction (items ctx) as [|i its IH]; simpl; [reflexivity|].
  rewrite IH, (product_exists_same st st' _ Hp). reflexivity.
Qed.

(** X10. The handler keeps no record of what it has ordered. Run twice
    with the same cart snapshot (the second run before the screen has
    re-rendered), on a connection without faults and with lines the store
    accepts, it succeeds twice and leaves two orders, with different ids
    and the same user, total and status, each with its own copy of the
    lines. *)
Theorem same_snapshot_twice_orders_twice u ctx w :
  items ctx <> [] -> no_faults w -> acceptable (db w) ctx = true ->
  exists w1 w2 o1 o2,
    handleCheckout (Some u) ctx Confirmar w = (Return AlertSucesso, w1)
    /\ handleCheckout (Some u) ctx Confirmar w1 = (Return AlertSucesso, w2)
    /\ orders (db w2) = orders (db w) ++ [o1; o2]
    /\ Orders.id o1 <> Orders.id o2
    /\ Orders.user_id o1 = User.id u /\ Orders.user_id o2 = User.id u
    /\ Orders.total_amount o1 = totalPrice ctx
    /\ Orders.total_amount o2 = totalPrice ctx
    /\ Orders.status o1 = pending /\ Orders.status o2 = pending
    /\ length (order_items (db w2))
       = length (order_items (db w)) + 2 * length (items ctx).
Proof.
  intros Hne Hf Hacc.
  destruct (checkout_succeeds u ctx w Hne Hf Hacc) as [w1 R1].
  pose proof (success_stores _ _ _ _ _ R1) as (u1 & Eu1 & _ & _ & _ & S1 & _).
  injection Eu1 as <-.
  pose proof (no_faults_after_tl _ _ Hf (success_faults _ _ _ _ _ R1)) as Hf1.
  assert (Hacc1 : acceptable (db w1) ctx = true).
  { rewrite (acceptable_same (db w) (db w1)); [exact Hacc|].
    rewrite S1. reflexivity. }
  destruct (checkout_succeeds u ctx w1 Hne Hf1 Hacc1) as [w2 R2].
  pose proof (success_stores _ _ _ _ _ R2) as (u2 & Eu2 & _ & _ & _ & S2 & _).
  injection Eu2 as <-.
  exists w1, w2. eexists. eexists.
  split; [exact R1|]. split; [exact R2|].
  rewrite S2. cbn [orders order_items]. rewrite S1.
  cbn [orders order_items next_uuid].
  split; [rewrite <- app_assoc; reflexivity|].
  cbn [Orders.id Orders.user_id Orders.total_amount Orders.status].
  split; [lia|].
  repeat (split; [reflexivity|]).
  rewrite !length_app, !assign_ids_length, !orderItems_length. lia.
Qed.

Lemma same_snapshot_twice_orders_twice_witness :
  exists w1 w2,
    handleCheckout (Some ana) (useCart (scenario [])) Confirmar (scenario [])
    = (Return AlertSucesso, w1)
    /\ handleCheckout (Some ana) (useCart (scenario [])) Confirmar w1
       = (Return AlertSucesso, w2)
    /\ length (orders (db w2)) = 2.
Proof.
  destruct (same_snapshot_twice_orders_twice ana (useCart (scenario []))
              (scenario []))
    as (w1 & w2 & o1 & o2 & R1 & R2 & Ho & _).
  - simpl. discriminate.
  - constructor.
  - reflexivity.
  - exists w1, w2. split; [exact R1|]. split; [exact R2|].
    rewrite Ho. reflexivity.
Defined.

Lemma placeOrder_returns_success user ctx w out w' :
  placeOrder user ctx w = (Return out, w') -> out = AlertSucesso.
Proof.
  destruct user as [u|]; [|rewrite placeOrder_no_user; discriminate].
  rewrite placeOrder_run.
  destruct (send _ _ w) as [[[order|e]|e] w1]; try discriminate.
  destruct (send _ _ w1) as [[[d|e]|e] w2]; try discriminate.
  destruct (clearCart (Some u) w2) as [[d'|e] w3]; try discriminate.
  intros H. injection H as H _. auto.
Qed.

(** X11. The 'Finalizar Compra' button is on the screen exactly when the
    cart has finished loading and holds a line; so a checkout started from
    the button the screen shows never ends with the 'Carrinho Vazio'
    alert: the handler's empty-cart branch answers only callers other than
    this button. *)
Theorem checkout_button_needs_a_line loading ctx :
  (checkout_button (CartScreen loading ctx) = true
   <-> loading = false /\ items ctx <> [])
  /\ (checkout_button (CartScreen loading ctx) = true ->
      forall user choice w,
        fst (handleCheckout user ctx choice w) <> Return AlertCarrinhoVazio).
Proof.
  assert (Hiff : checkout_button (CartScreen loading ctx) = true
                 <-> loading = false /\ items ctx <> []).
  { unfold CartScreen. destruct loading; simpl.
    - split; [discriminate|intros [H _]; discriminate].
    - destruct (items ctx) as [|i its]; simpl; split; try discriminate;
        auto.
      + intros [_ H]. congruence.
      + intros _. split; [reflexivity|discriminate]. }
  split; [exact Hiff|].
  intros Hb user choice w. apply Hiff in Hb. destruct Hb as [_ Hne].
  unfold handleCheckout. rewrite (nonempty_length _ Hne).
  destruct choice; [discriminate|].
  unfold try_catch.
  destruct (placeOrder user ctx w) as [[out|e] w'] eqn:E; cbn [fst ret].
  - apply placeOrder_returns_success in E. subst out. discriminate.
  - discriminate.
Qed.

Lemma checkout_button_needs_a_line_witness :
  fst (handleCheckout (Some ana) (useCart (scenario [])) Confirmar
                      (scenario []))
  <> Return AlertCarrinhoVazio.
Proof.
  apply (proj2 (checkout_button_needs_a_line false (useCart (scenario [])))).
  reflexivity.
Defined.

(** X12. The tab layout shows the tabs, the cart screen among them, to a
    signed-in user only: it renders nothing while loading or without a
    user, and redirects to the login exactly when loading is over and
    there is no user. Inside the tabs a confirmed checkout therefore
    never fails for lack of an identity: when it ends with the error
    alert, at least one request had been sent. *)
Theorem tabs_are_for_a_signed_in_user user loading total :
  (TabLayout user loading total = RenderNothing
   <-> loading = true \/ user = None)
  /\ (redirects_to_login user loading = true
      <-> loading = false /\ user = None)
  /\ (forall badge,
         TabLayout user loading total = Tabs badge ->
         (exists u, user = Some u)
         /\ redirects_to_login user loading = false
         /\ forall ctx w w',
             handleCheckout user ctx Confirmar w = (Return AlertErro, w') ->
             log w' <> log w).
Proof.
  split; [|split].
  - unfold TabLayout. destruct loading, user; simpl; split; auto;
      try discriminate; intros [H|H]; discriminate.
  - unfold redirects_to_login. destruct loading, user; simpl; split; auto;
      try discriminate; intros [H1 H2]; discriminate.
  - intros badge H. unfold TabLayout in H.
    destruct loading; [discriminate|]. destruct user as [u|]; [|discriminate].
    split; [exists u; reflexivity|]. split; [reflexivity|].
    intros ctx w w' Hrun.
    destruct (checkout_run_shape (Some u) ctx Confirmar w)
      as (out & w'' & added & Hrun' & Hlog & Hcases).
    rewrite Hrun in Hrun'. injection Hrun' as <- <-.
    destruct Hcases
      as [(_ & _ & [(_ & Ho) | [(_ & Hc & _) | (_ & _ & Hu & _)]])
         | (u' & order & k & _ & _ & _ & Hk & Hadd & _)];
      try discriminate.
    rewrite Hlog. intros Heq.
    apply (f_equal (@length _)) in Heq. rewrite length_app in Heq.
    subst added. rewrite length_firstn in Heq.
    cbn [checkout_requests length] in Heq. lia.
Qed.

Lemma tabs_are_for_a_signed_in_user_witness :
  log (snd line_fault_run) <> log (scenario [false; true]).
Proof.
  destruct (proj2 (proj2 (tabs_are_for_a_signed_in_user (Some ana) false 3))
              (Some 3%Z)) as (_ & _ & H).
  - reflexivity.
  - apply (H (useCart (scenario [false; true])) (scenario [false; true])).
    reflexivity.
Defined.


(* ===================================================================== *)
(** * 13. The profile screen and the category tabs                        *)
(* ===================================================================== *)

Lemma loadOrders_own u st :
  loadOrders (Some u) st
  = firstn 10 (rev (filter (fun o => Orders.user_id o =? User.id u)
                           (orders st))).
Proof.
  unfold loadOrders. cbn [session_of option_map].
  rewrite select_own_orders. reflexivity.
Qed.

Lemma in_firstn {A} (n : nat) (l : list A) (x : A) :
  In x (firstn n l) -> In x l.
Proof.
  intros H. rewrite <- (firstn_skipn n l). apply in_or_app. left. exact H.
Qed.

Lemma loadOrders_length user st : length (loadOrders user st) <= 10.
Proof.
  destruct user as [u|]; [|simpl; lia].
  rewrite loadOrders_own, length_firstn. lia.
Qed.

(** X13. The order history holds the user's ten newest orders and no
    other: never more than ten rows, each of them a stored order of the
    signed-in user, namely the user's orders from the newest back, cut
    after the tenth; without a user it is empty. *)
Theorem order_history_is_the_ten_newest user st :
  length (loadOrders user st) <= 10
  /\ Forall (fun o => In o (orders st)
                      /\ Some (Orders.user_id o) = option_map User.id user)
            (loadOrders user st)
  /\ (forall u, user = Some u ->
                loadOrders user st
                = firstn 10
                    (rev (filter (fun o => Orders.user_id o =? User.id u)
                                 (orders st))))
  /\ loadOrders None st = [].
Proof.
  split; [|split; [|split]].
  - apply loadOrders_length.
  - destruct user as [u|]; [|constructor].
    rewrite loadOrders_own. apply Forall_forall. intros o Ho.
    apply in_firstn in Ho. apply in_rev in Ho. apply filter_In in Ho.
    destruct Ho as [Hin Hu]. apply Nat.eqb_eq in Hu.
    split; [exact Hin|]. simpl. rewrite Hu. reflexivity.
  - intros u ->. apply loadOrders_own.
  - reflexivity.
Qed.

Lemma disjoint_filters_length {A} (P Q : A -> bool) (l : list A) :
  (forall x, P x && Q x = false) ->
  length (filter P l) + length (filter Q l) <= length l.
Proof.
  intros H. induction l as [|x l IH]; simpl; [lia|].
  specialize (H x). destruct (P x), (Q x); simpl in *; try discriminate; lia.
Qed.

(** X14. The counters of the profile screen count within the ten orders
    shown: 'Pedidos' is the number of the user's orders up to ten and ten
    from there on, and 'Pendentes' and 'Entregues' together never exceed
    it. *)
Theorem profile_counters_stop_at_ten user st :
  pendentes (profile_stats (loadOrders user st))
  + entregues (profile_stats (loadOrders user st))
  <= pedidos (profile_stats (loadOrders user st))
  /\ pedidos (profile_stats (loadOrders user st)) <= 10
  /\ (forall u, user = Some u ->
                pedidos (profile_stats (loadOrders user st))
                = Nat.min 10
                    (length (filter (fun o => Orders.user_id o =? User.id u)
                                    (orders st)))).
Proof.
  unfold profile_stats. cbn [pedidos pendentes entregues].
  split; [|split].
  - apply disjoint_filters_length. intros o. unfold has_status.
    destruct (Orders.status o); reflexivity.
  - apply loadOrders_length.
  - intros u ->. rewrite loadOrders_own, length_firstn, length_rev.
    reflexivity.
Qed.

Lemma unknown_status_eqb str s :
  (forall s', str <> status_name s') -> String.eqb str (status_name s) = false.
Proof. intros H. apply String.eqb_neq. apply H. Qed.

(** X15. Labels and colours tell the five statuses apart: two different
    statuses never get the same label or the same colour, and every
    status has a label other than its stored text. A text that is none of
    the five is shown as it is, in the colour of 'shipped'. *)
Theorem status_labels_tell_statuses_apart :
  (forall s1 s2,
      getStatusText (status_name s1) = getStatusText (status_name s2) ->
      s1 = s2)
  /\ (forall s1 s2,
         getStatusColor (status_name s1) = getStatusColor (status_name s2) ->
         s1 = s2)
  /\ (forall s, getStatusText (status_name s) <> status_name s)
  /\ (forall str,
         (forall s, str <> status_name s) ->
         getStatusText str = str
         /\ getStatusColor str = getStatusColor (status_name shipped)).
Proof.
  split; [|split; [|split]].
  - intros s1 s2. destruct s1, s2; intros H; try reflexivity;
      vm_compute in H; discriminate H.
  - intros s1 s2. destruct s1, s2; intros H; try reflexivity;
      vm_compute in H; discriminate H.
  - intros s. destruct s; vm_compute; discriminate.
  - intros str H. unfold getStatusText, getStatusColor.
    pose proof (unknown_status_eqb str pending H) as E1.
    pose proof (unknown_status_eqb str confirmed H) as E2.
    pose proof (unknown_status_eqb str shipped H) as E3.
    pose proof (unknown_status_eqb str delivered H) as E4.
    pose proof (unknown_status_eqb str cancelled H) as E5.
    cbn [status_name] in E1, E2, E3, E4, E5.
    rewrite E1, E2, E3, E4, E5. split; reflexivity.
Qed.

Lemma status_labels_tell_statuses_apart_witness :
  getStatusText "refunded" = "refunded"%string.
Proof.
  apply (proj2 (proj2 (proj2 status_labels_tell_statuses_apart)) "refunded"%string).
  intros s. destruct s; vm_compute; discriminate.
Defined.

(** X16. Loading the order history ends the profile screen's loading
    state whenever there is a user, also when the request fails: one
    request is sent, the store is left alone, and the orders shown become
    the user's ten newest, or stay what they were on failure. Without a
    user nothing is sent and the state, the loading flag included, is
    left as it was. *)
Theorem profile_loading_ends_only_with_a_user :
  (forall ps w, ProfileScreen_loadOrders None ps w = (ps, w))
  /\ (forall u ps w,
         exists ps' w',
           ProfileScreen_loadOrders (Some u) ps w = (ps', w')
           /\ profile_loading ps' = false
           /\ db w' = db w
           /\ log w' = log w ++ [logged (SelectOrders (User.id u))]
           /\ shown_orders ps'
              = if hd false (faults w) then shown_orders ps
                else loadOrders (Some u) (db w)).
Proof.
  split; [reflexivity|].
  intros u ps w. unfold ProfileScreen_loadOrders, loadOrders.
  cbn [session_of option_map]. rewrite send_eq. cbn [exec].
  destruct (hd false (faults w)).
  - eexists. eexists. split; [reflexivity|]. repeat split.
  - unfold select_orders. cbn [fst snd].
    eexists. eexists. split; [reflexivity|]. repeat split.
Qed.

Lemma theme_colour_is_not_grey theme : getThemeColor theme <> "#f0f0f0"%string.
Proof.
  unfold getThemeColor.
  destruct (String.eqb theme "pink"); [discriminate|].
  destruct (String.eqb theme "blue"); discriminate.
Qed.

Lemma tab_background sel item :
  fst (renderCategoryTab sel item) = "#f0f0f0"%string
  <-> sel <> Some (Category.id item).
Proof.
  unfold renderCategoryTab. cbn [fst].
  destruct sel as [c|].
  - destruct (Nat.eqb_spec c (Category.id item)) as [E|E].
    + split; intros H.
      * exfalso. exact (theme_colour_is_not_grey _ H).
      * exfalso. apply H. rewrite E. reflexivity.
    + split; [intros _ H; injection H as H; contradiction|reflexivity].
  - split; [discriminate|reflexivity].
Qed.

(** X17. Loading the categories ends the loading state in every case.
    On failure the categories and the selection stay; on an empty result
    the selection stays; on a non-empty result the first category becomes
    the selected one, and from then on the tabs drawn with a theme colour
    instead of the grey background are exactly those of that category's
    id, whatever the theme texts are. *)
Theorem first_category_is_selected_after_load :
  (forall r s, categories_loading (loadCategories r s) = false)
  /\ (forall e s,
         categories (loadCategories (Failure e) s) = categories s
         /\ selectedCategory (loadCategories (Failure e) s)
            = selectedCategory s)
  /\ (forall s,
         selectedCategory (loadCategories (Data (Some [])) s)
         = selectedCategory s
         /\ selectedCategory (loadCategories (Data None) s)
            = selectedCategory s
         /\ categories (loadCategories (Data None) s) = [])
  /\ (forall c rest s item,
         categories (loadCategories (Data (Some (c :: rest))) s) = c :: rest
         /\ selectedCategory (loadCategories (Data (Some (c :: rest))) s)
            = Some (Category.id c)
         /\ (fst (renderCategoryTab
                    (selectedCategory
                       (loadCategories (Data (Some (c :: rest))) s))
                    item)
             <> "#f0f0f0"%string
             <-> Category.id item = Category.id c)).
Proof.
  split; [intros r s; destruct r as [[[|c d]|]|e]; reflexivity|].
  split; [intros e s; split; reflexivity|].
  split; [intros s; repeat split|].
  intros c rest s item. split; [reflexivity|]. split; [reflexivity|].
  cbn [loadCategories selectedCategory]. rewrite tab_background.
  split.
  - intros H. destruct (Nat.eq_dec (Category.id item) (Category.id c)) as [E|E];
      [exact E|]. exfalso. apply H. intros X. injection X as X. congruence.
  - intros E H. apply H. rewrite E. reflexivity.
Qed.


(* ===================================================================== *)
(** * 14. The cart line round trip and what the store accepts             *)
(* ===================================================================== *)

Lemma filter_complement {A} (f : A -> bool) (l : list A) :
  filter f l = [] -> filter (fun x => negb (f x)) l = l.
Proof.
  induction l as [|x l IH]; simpl; [reflexivity|].
  destruct (f x); simpl; [discriminate|].
  intros H. rewrite (IH H). reflexivity.
Qed.

(** X19. A cart line goes in, is found, cannot go in twice, and comes out
    again. For a signed-in user, a product of the catalogue without a
    line in that user's cart, and a quantity within range: the insert is
    accepted; the lookup for (user, product) then returns the line, with
    that user, product and quantity; a second insert for the same pair is
    refused as a violation of the unique constraint; and deleting the
    line gives back the cart lines there were before. *)
Theorem cart_line_round_trip u p q st :
  fits_integer q = true -> product_exists st p = true -> lines u p st = [] ->
  exists st' row,
    exec (Some u) (InsertCartItem u p q) st = (st', Data tt)
    /\ exec (Some u) (SelectCartItem u p) st' = (st', Data (Some row))
    /\ CartItems.user_id row = u /\ CartItems.product_id row = p
    /\ CartItems.quantity row = q
    /\ (forall q', fits_integer q' = true ->
                   exec (Some u) (InsertCartItem u p q') st'
                   = (st', Failure unique_violation))
    /\ cart_items (fst (exec (Some u) (DeleteCartItems u (Some p)) st'))
       = cart_items st.
Proof.
  intros Hfit Hp Hnone.
  eexists. exists (CartItems.mk (next_uuid st) u p q).
  cbn [exec]. rewrite (insert_own_line u p q st Hfit Hp Hnone).
  split; [reflexivity|].
  assert (Hline : is_line u p (CartItems.mk (next_uuid st) u p q) = true)
    by (unfold is_line; cbn; rewrite !Nat.eqb_refl; reflexivity).
  split.
  { rewrite select_own_line. unfold lines. cbn [cart_items].
    unfold lines in Hnone. rewrite filter_app, Hnone. cbn [filter app].
    rewrite Hline. reflexivity. }
  split; [reflexivity|]. split; [reflexivity|]. split; [reflexivity|].
  split.
  { intros q' Hq'. unfold insert_cart_item. rewrite Hq'. cbn [negb].
    unfold cart_item_keys. cbn [CartItems.user_id cart_items next_uuid].
    rewrite own_row_only, Nat.eqb_refl. cbn [negb].
    unfold product_exists in *. cbn [products]. rewrite Hp. cbn [negb].
    rewrite existsb_app. cbn [existsb]. rewrite Hline, orb_true_r.
    reflexivity. }
  rewrite delete_own_line. cbn [fst set_cart_items cart_items].
  rewrite filter_app. cbn [filter]. rewrite Hline. cbn [negb].
  rewrite app_nil_r. apply filter_complement. exact Hnone.
Qed.

Lemma cart_line_round_trip_witness :
  exists st',
    exec (Some 2) (InsertCartItem 2 101 4) scenario_store = (st', Data tt)
    /\ cart_items (fst (exec (Some 2) (DeleteCartItems 2 (Some 101)) st'))
       = cart_items scenario_store.
Proof.
  destruct (cart_line_round_trip 2 101 4 scenario_store)
    as (st' & row & H1 & _ & _ & _ & _ & _ & H2).
  - reflexivity.
  - reflexivity.
  - reflexivity.
  - exists st'. split; assumption.
Defined.

(** X20. The cart table checks a quantity for its range and for nothing
    else. For a signed-in user and a product of the catalogue without a
    line in that user's cart, the insert of a line is accepted exactly
    when the quantity is a 32-bit integer: zero and negative quantities go
    in, and an out-of-range one is refused with a numeric error. *)
Theorem cart_quantity_is_checked_for_range_only u p q st :
  product_exists st p = true -> lines u p st = [] ->
  (snd (exec (Some u) (InsertCartItem u p q) st) = Data tt
   <-> fits_integer q = true)
  /\ (fits_integer q = false ->
      exec (Some u) (InsertCartItem u p q) st
      = (st, Failure numeric_value_out_of_range)).
Proof.
  intros Hp Hnone. cbn [exec]. split; [split|].
  - unfold insert_cart_item. destruct (fits_integer q); [reflexivity|].
    cbn. discriminate.
  - intros Hfit. rewrite (insert_own_line u p q st Hfit Hp Hnone).
    reflexivity.
  - intros Hfit. unfold insert_cart_item. rewrite Hfit. reflexivity.
Qed.

Lemma cart_quantity_is_checked_for_range_only_witness :
  snd (exec (Some 2) (InsertCartItem 2 101 (-3)) scenario_store) = Data tt.
Proof.
  apply (proj1 (cart_quantity_is_checked_for_range_only 2 101 (-3)%Z
                  scenario_store eq_refl eq_refl)).
  reflexivity.
Defined.

(** X21. An order is accepted exactly when it is sent for oneself with a
    total that fits the column: the insert of an order comes back with a
    row if and only if the client is signed in as the order's user and
    the total fits [decimal(10,2)]. Nothing else is looked at, neither
    the status sent nor the cart; the row stored carries the next
    generated id and the user, total and status as sent. *)
Theorem order_is_accepted_for_oneself s u total status st :
  ((exists row, snd (exec s (InsertOrder u total status) st) = Data row)
   <-> s = Some u /\ fits_decimal_10_2 total = true)
  /\ (forall row,
         snd (exec s (InsertOrder u total status) st) = Data row ->
         row = Orders.mk (next_uuid st) u total status
         /\ orders (fst (exec s (InsertOrder u total status) st))
            = orders st ++ [row]).
Proof.
  cbn [exec].
  assert (Hinv : forall row,
             snd (insert_order s u total status st) = Data row ->
             s = Some u /\ fits_decimal_10_2 total = true
             /\ row = Orders.mk (next_uuid st) u total status
             /\ orders (fst (insert_order s u total status st))
                = orders st ++ [row]).
  { intros row H.
    destruct (insert_order s u total status st) as [st' resp] eqn:E.
    cbn [snd] in H. subst resp.
    apply insert_order_data in E. destruct E as (Hs & Hf & Hr & Hst).
    subst st'. cbn [fst orders]. auto. }
  split; [split|].
  - intros [row H]. destruct (Hinv row H) as (Hs & Hf & _). auto.
  - intros [-> Hf]. rewrite (insert_order_accepts u total status st Hf).
    eexists. reflexivity.
  - intros row H. destruct (Hinv row H) as (_ & _ & Hr & Ho). auto.
Qed.
